(** * TaskManagement: membership, permissions and task ordering

    A shallow embedding of the server-side membership model
    ([server/src/models/Project.ts]), of the task and comment schemas
    ([server/src/models/Task.ts], the comment model) and of the project,
    task and comment services ([server/src/services/projectService.ts],
    [server/src/services/taskService.ts],
    [server/src/services/commentService.ts]).

    Conventions.
    - A [mongoose.Types.ObjectId] is represented by its [toString()]
      rendering, which is what every comparison in the model goes through
      ([a.toString() === b.toString()]).
    - A [Date] is the number of milliseconds since the epoch.
    - The document store is a record of finite maps from [_id] to document,
      one per collection.  [save()] of a new document is an insert, [save()]
      of a loaded one replaces it, [findById] is a lookup.
    - The task and comment schemas are strict: a key that is no path of
      the schema is dropped by the constructor, and assigned to a loaded
      document it is a property of the object in memory that [save()] does
      not write.  A stored task or comment has the paths of its schema.
    - [save()] validates the document against the schema ([required],
      [enum], [maxlength], after [trim]).  The validation is modelled for
      the saves of the task and comment services and for [createProject];
      what the other operations of the project service write to an
      existing project is stored as the methods of the model leave it.
    - [populate] of a path that the schema does not have makes the query
      throw once it has found a document; a populated reference is the
      referenced document, or [null] when no such document exists.
    - The listings sort on the stamps [createdAt] and [updatedAt] that the
      store keeps for each document; they take the stamps as arguments.
    - A thrown [createError(_, _, code)] is [Err code]; an error thrown by
      the store or the runtime is [Err] of its class.  An [Err] is thrown
      before the first write of the call; [Ok] carries the store that the
      call leaves behind. *)

From Stdlib Require Import ZArith.
From stdpp Require Import gmap strings list fin_maps sorting.

Local Open Scope string_scope.
Local Open Scope Z_scope.

Abbreviation ObjectId := string (only parsing).
Abbreviation Date := Z (only parsing).

(** ** Error codes thrown by the service layer *)

Inductive ServiceError : Type :=
| PROJECT_NOT_FOUND
| TASK_NOT_FOUND
| ACCESS_DENIED
| INSUFFICIENT_PERMISSIONS
| INVALID_ASSIGNEE
| DUPLICATE_KEY
| COMMENT_NOT_FOUND
| PARENT_COMMENT_NOT_FOUND
| VALIDATION_ERROR
| STRICT_POPULATE_ERROR
| TYPE_ERROR.

Inductive Result (A : Type) : Type :=
| Ok (a : A)
| Err (e : ServiceError).

Arguments Ok {A} a.
Arguments Err {A} e.

#[global] Instance Result_ret : MRet Result := fun A a => Ok a.

#[global] Instance Result_bind : MBind Result := fun A B f m =>
  match m with
  | Ok a => f a
  | Err e => Err e
  end.

(** [if (!x) throw createError(.., code)] for a document returned by
    [findById]. *)
Definition orThrow {A : Type} (e : ServiceError) (o : option A) : Result A :=
  match o with
  | Some a => Ok a
  | None => Err e
  end.

(** [if (c) throw createError(.., code)]. *)
Definition throwIf (c : bool) (e : ServiceError) : Result unit :=
  if c then Err e else Ok tt.

(** ** Schema rules *)

(** The white space that [trim: true] takes off both ends of a string, as
    far as it is ASCII. *)
Definition isWhitespace (a : Ascii.ascii) : bool :=
  bool_decide (Ascii.nat_of_ascii a ∈ [9; 10; 11; 12; 13; 32]%nat).

Fixpoint dropWhitespace (l : list Ascii.ascii) : list Ascii.ascii :=
  match l with
  | a :: l' => if isWhitespace a then dropWhitespace l' else l
  | [] => []
  end.

Definition trim (s : string) : string :=
  String.string_of_list_ascii
    (rev (dropWhitespace (rev (dropWhitespace (String.list_ascii_of_string s))))).

(** [required: true] on a string path: the value is there and not empty. *)
Definition present (s : string) : bool := negb (bool_decide (s = "")).

(** [maxlength: n] *)
Definition atMost (n : nat) (s : string) : bool :=
  bool_decide (String.length s ≤ n)%nat.

(** [.populate(path, ..)] on the documents that a query has found: a
    requested path that is none of the schema's makes the query throw
    [StrictPopulateError].  A query that has found nothing populates
    nothing. *)
Definition populate (schemaPaths requested : list string) : Result unit :=
  throwIf (negb (forallb (fun p => bool_decide (p ∈ schemaPaths)) requested))
    STRICT_POPULATE_ERROR.

(** ** models/Project.ts *)

Module Project.

Record IProjectMember : Type := mkMember {
  userId : ObjectId;
  role : string;
  joinedAt : Date
}.

Record IProjectSettings : Type := mkSettings {
  isPublic : option bool;
  allowMemberInvites : option bool;
  defaultTaskStatus : option string;
  taskLabels : option (list string)
}.

Record IProject : Type := mkProject {
  name : string;
  description : option string;
  color : option string;
  status : option string;
  ownerId : ObjectId;
  members : list IProjectMember;
  settings : option IProjectSettings
}.

Definition setRole (m : IProjectMember) (r : string) : IProjectMember :=
  {| userId := userId m; role := r; joinedAt := joinedAt m |}.

Definition setMembers (p : IProject) (ms : list IProjectMember) : IProject :=
  {| name := name p; description := description p; color := color p;
     status := status p; ownerId := ownerId p; members := ms;
     settings := settings p |}.

(** The callback
    [(member) => member.userId.toString() === userId.toString()]. *)
Definition sameUser (u : ObjectId) (m : IProjectMember) : Prop :=
  userId m = u.

#[global] Instance sameUser_dec u m : Decision (sameUser u m).
Proof. unfold sameUser. apply _. Defined.

(** [this.members.some(cb)] *)
Definition isMember (p : IProject) (u : ObjectId) : bool :=
  existsb (fun m => bool_decide (sameUser u m)) (members p).

(** [this.members.find(cb)], then [member ? member.role : null].
    [list_find] returns the first match together with its index. *)
Definition getMemberRole (p : IProject) (u : ObjectId) : option string :=
  match list_find (sameUser u) (members p) with
  | Some (_, m) => Some (role m)
  | None => None
  end.

Definition canManage (p : IProject) (u : ObjectId) : bool :=
  if bool_decide (ownerId p = u) then true
  else match list_find (sameUser u) (members p) with
       | Some (_, m) => bool_decide (role m ∈ ["owner"; "admin"])
       | None => false
       end.

(** [existingMember] aliases the array element found by [find]; the
    assignment [existingMember.role = role] therefore rewrites that
    element, at its index, and nothing else. *)
Definition addMember (p : IProject) (u : ObjectId) (r : string) (now : Date)
  : IProject :=
  match list_find (sameUser u) (members p) with
  | Some (i, existingMember) =>
      setMembers p (<[i := setRole existingMember r]> (members p))
  | None =>
      setMembers p (members p ++ [mkMember u r now])
  end.

Definition removeMember (p : IProject) (u : ObjectId) : IProject :=
  setMembers p (filter (fun m => ¬ sameUser u m) (members p)).

(** The virtual [memberCount]: [this.members.length]. *)
Definition memberCount (p : IProject) : nat := length (members p).

(** *** Capabilities *)

Inductive Capability : Type :=
| canEdit
| canDelete
| canInvite
| canManageTasks.

#[global] Instance Capability_eq_dec : EqDecision Capability.
Proof. solve_decision. Defined.

(** Modelled from the spec: the role-capability table consulted by
    [hasPermission]; [models/Project.ts] does not define it.  The table
    of the specification, row by row; a role that is not in the table
    has no capability. *)
Definition roleCapabilities (r : string) : list Capability :=
  if bool_decide (r = "owner") then [canEdit; canDelete; canInvite; canManageTasks]
  else if bool_decide (r = "admin") then [canEdit; canInvite; canManageTasks]
  else if bool_decide (r = "member") then [canManageTasks]
  else [].

(** Modelled from the spec: the method [hasPermission], which the
    services call and [models/Project.ts] does not define.  It looks the
    role up via [getMemberRole] and then consults the capability table;
    an unknown user is denied. *)
Definition hasPermission (p : IProject) (u : ObjectId) (c : Capability) : bool :=
  match getMemberRole p u with
  | Some r => bool_decide (c ∈ roleCapabilities r)
  | None => false
  end.

(** Modelled from the spec: the method [updateMemberRole], which
    [ProjectService.updateMemberRole] calls and [models/Project.ts] does
    not define.  In-place role replacement; nothing happens when the user
    is not found. *)
Definition updateMemberRole (p : IProject) (u : ObjectId) (r : string)
  : IProject :=
  match list_find (sameUser u) (members p) with
  | Some (i, m) => setMembers p (<[i := setRole m r]> (members p))
  | None => p
  end.

End Project.

(** ** models/Task.ts: the task document *)

Module Task.

(** A subtask as the payloads of the task service carry it; the task
    schema has no such path. *)
Record ISubtask : Type := mkSubtask {
  st_title : string;
  st_completed : option bool
}.

(** The stored task.  [attachments] and [watchers], which no service reads
    or writes, are left out. *)
Record ITask : Type := mkTask {
  title : string;
  description : option string;
  status : string;
  priority : string;
  projectId : ObjectId;
  assigneeId : option ObjectId;
  creatorId : ObjectId;
  dueDate : option Date;
  labels : list string;
  order : Z;
  isArchived : bool
}.

(** The paths of [taskSchema], by name. *)
Definition paths : list string :=
  ["projectId"; "title"; "description"; "status"; "priority"; "assigneeId";
   "creatorId"; "labels"; "dueDate"; "attachments"; "watchers"; "order";
   "isArchived"].

(** [enum: ['Low', 'Medium', 'High', 'Critical']] *)
Definition priorities : list string := ["Low"; "Medium"; "High"; "Critical"].

(** The constraints of the schema on the string paths: [title] required and
    at most 200 long, [description] at most 5000 long, [status] required,
    [priority] one of the enum. *)
Definition validFields (title : string) (description : option string)
  (status priority : string) : bool :=
  present title && atMost 200 title
  && match description with
     | Some d => atMost 5000 d
     | None => true
     end
  && present status
  && bool_decide (priority ∈ priorities).

End Task.

(** ** The comment model *)

Module Comment.

(** The stored comment: the paths of [commentSchema]. *)
Record IComment : Type := mkComment {
  taskId : ObjectId;
  authorId : ObjectId;
  body : string;
  mentions : list ObjectId;
  parentId : option ObjectId;
  isEdited : bool;
  editedAt : option Date
}.

(** The paths of [commentSchema], by name. *)
Definition paths : list string :=
  ["taskId"; "authorId"; "body"; "mentions"; "parentId"; "isEdited"; "editedAt"].

(** The constraints of the schema on [body]: required, at most 5000
    long. *)
Definition valid (c : IComment) : bool := present (body c) && atMost 5000 (body c).

End Comment.

(** ** The document store and the activity log *)

(** What the services pass to [ActivityLog.logActivity]. *)
Record ActivityData : Type := mkActivity {
  action : string;
  entityType : string;
  entityId : ObjectId;
  a_userId : ObjectId;
  a_projectId : ObjectId
}.

(** The collections: projects, tasks and comments by [_id], the ids of the
    users that exist, and the activity log. *)
Record Db : Type := mkDb {
  projects : gmap string Project.IProject;
  tasks : gmap string Task.ITask;
  comments : gmap string Comment.IComment;
  users : gset string;
  activity : list ActivityData
}.

Definition setProjects (db : Db) (ps : gmap string Project.IProject) : Db :=
  {| projects := ps; tasks := tasks db; comments := comments db;
     users := users db; activity := activity db |}.

Definition setTasks (db : Db) (ts : gmap string Task.ITask) : Db :=
  {| projects := projects db; tasks := ts; comments := comments db;
     users := users db; activity := activity db |}.

Definition setComments (db : Db) (cs : gmap string Comment.IComment) : Db :=
  {| projects := projects db; tasks := tasks db; comments := cs;
     users := users db; activity := activity db |}.

(** Modelled from the spec: the static [ActivityLog.logActivity], which the
    services call after each mutation and no model under the sources
    defines.  One entry, holding what the service has passed, is appended
    to the log; the log is never rewritten. *)
Definition logActivity (db : Db) (e : ActivityData) : Db :=
  {| projects := projects db; tasks := tasks db; comments := comments db;
     users := users db; activity := activity db ++ [e] |}.

(** What [populate] leaves in a reference to a user: the user document, or
    [null] when no user has that id. *)
Definition populatedUser (db : Db) (u : ObjectId) : option ObjectId :=
  if bool_decide (u ∈ users db) then Some u else None.

(** [Object.assign] on one optional field of the update payload: a field
    that is present overwrites, an absent one leaves the document alone. *)
Definition assignField {A : Type} (new : option A) (old : A) : A :=
  match new with
  | Some v => v
  | None => old
  end.

Definition assignOpt {A : Type} (new : option A) (old : option A) : option A :=
  match new with
  | Some v => Some v
  | None => old
  end.

(** An optional string as a test [if (s)] sees it: a string that is absent
    and the empty string are both falsy. *)
Definition truthy (s : option string) : option string :=
  match s with
  | Some EmptyString => None
  | _ => s
  end.

(** ** Paged results

    [page] and [limit] are positive integers: the controllers validate them
    with [isInt({ min: 1 })] and read them with [parseInt(..) || default]. *)

Record Page (A : Type) : Type := mkPage {
  items : list A;
  total : nat;
  page : positive;
  pages : nat
}.

Arguments mkPage {A} items total page pages.
Arguments items {A} _.
Arguments total {A} _.
Arguments page {A} _.
Arguments pages {A} _.

(** [const skip = (page - 1) * limit] *)
Definition skipOf (page limit : positive) : nat :=
  ((Pos.to_nat page - 1) * Pos.to_nat limit)%nat.

(** [.skip(skip).limit(limit)] applied to the sorted result of a query. *)
Definition paginate {A : Type} (page limit : positive) (l : list A) : list A :=
  take (Pos.to_nat limit) (drop (skipOf page limit) l).

(** [Math.ceil(total / limit)] *)
Definition pageCount (total : nat) (limit : positive) : nat :=
  ((total + Pos.to_nat limit - 1) / Pos.to_nat limit)%nat.

(** The filter [{ $or: [{ ownerId: userId }, { 'members.userId': userId }] }]
    that [getUserProjects] and [getTasks] send to the store: the user owns
    the project, or some element of its member array carries the user's
    id. *)
Definition ownedOrJoined (u : ObjectId) (p : Project.IProject) : bool :=
  bool_decide (Project.ownerId p = u)
  || existsb (fun m => bool_decide (Project.userId m = u)) (Project.members p).

(** ** Queries that populate *)

(** [Model.findById(id).populate(..)]: the paths are populated on the
    document that is found, and on nothing when there is none. *)
Definition findOnePopulated {A : Type} (schemaPaths requested : list string)
  (found : option A) : Result (option A) :=
  match found with
  | Some d => populate schemaPaths requested;; Ok (Some d)
  | None => Ok None
  end.

(** [Model.find(query).populate(..)], likewise on a list of documents. *)
Definition findPopulated {A : Type} (schemaPaths requested : list string)
  (found : list A) : Result (list A) :=
  match found with
  | [] => Ok []
  | _ :: _ => populate schemaPaths requested;; Ok found
  end.

(** ** services/taskService.ts *)

Module TaskService.

Record CreateTaskData : Type := mkCreateTaskData {
  c_title : string;
  c_description : option string;
  c_priority : option string;
  c_projectId : ObjectId;
  (** [None] stands for a falsy [assigneeId]: absent, or the empty string,
      which denotes no [ObjectId]. *)
  c_assigneeId : option ObjectId;
  c_dueDate : option Date;
  c_labels : option (list string);
  c_subtasks : option (list Task.ISubtask)
}.

Record UpdateTaskData : Type := mkUpdateTaskData {
  u_title : option string;
  u_description : option string;
  u_status : option string;
  u_priority : option string;
  u_assigneeId : option ObjectId;
  u_dueDate : option Date;
  u_labels : option (list string);
  u_position : option Z;
  u_subtasks : option (list Task.ISubtask)
}.

(** A JavaScript number, as far as [createTask] computes one. *)
Inductive JsNumber : Type :=
| NaN
| Num (z : Z).

(** [Task.findOne({ projectId }).sort({ position: -1 }).select('position')]:
    no stored task has a [position] to sort on, so the query answers with
    some task of the project, whatever its status or archival flag (here
    the first in the order of the store), and with [null] when the project
    has none. *)
Definition findLastTask (db : Db) (pid : ObjectId) : option Task.ITask :=
  head (filter (fun t => Task.projectId t = pid) (snd <$> map_to_list (tasks db))).

(** [lastTask ? lastTask.position + 1 : 0].  [position] is no path of the
    task schema: on the task that the query returns the property is
    [undefined], and [undefined + 1] is [NaN]. *)
Definition nextPosition (lastTask : option Task.ITask) : JsNumber :=
  match lastTask with
  | Some _ => NaN
  | None => Num 0
  end.

(** The document that the [Task] constructor builds, before validation:
    the required path [creatorId] may be missing from it. *)
Record NewTask : Type := mkNewTask {
  n_title : string;
  n_description : option string;
  n_status : string;
  n_priority : string;
  n_projectId : ObjectId;
  n_assigneeId : option ObjectId;
  n_creatorId : option ObjectId;
  n_dueDate : option Date;
  n_labels : list string;
  n_order : Z;
  n_isArchived : bool
}.

(** [new Task({...data, projectId, assigneeId, createdById, position})].
    The keys [createdById], [position] and [subtasks] are no paths of the
    schema and are dropped, so the creator and the position that the
    service has computed are not part of the document; no key gives
    [creatorId]; the paths that the payload leaves out take the defaults of
    the schema. *)
Definition newTask (data : CreateTaskData) (createdById : ObjectId)
  (position : JsNumber) : NewTask :=
  {| n_title := trim (c_title data);
     n_description := trim <$> c_description data;
     n_status := "backlog";
     n_priority := default "Medium" (c_priority data);
     n_projectId := c_projectId data;
     n_assigneeId := c_assigneeId data;
     n_creatorId := None;
     n_dueDate := c_dueDate data;
     n_labels := default [] (c_labels data);
     n_order := 0;
     n_isArchived := false |}.

(** The validation that [save()] runs on a new task: the document that is
    stored, or nothing when a constraint of the schema fails. *)
Definition validate (n : NewTask) : option Task.ITask :=
  match n_creatorId n with
  | Some creator =>
      if Task.validFields (n_title n) (n_description n) (n_status n) (n_priority n)
      then Some {| Task.title := n_title n;
                   Task.description := n_description n;
                   Task.status := n_status n;
                   Task.priority := n_priority n;
                   Task.projectId := n_projectId n;
                   Task.assigneeId := n_assigneeId n;
                   Task.creatorId := creator;
                   Task.dueDate := n_dueDate n;
                   Task.labels := n_labels n;
                   Task.order := n_order n;
                   Task.isArchived := n_isArchived n |}
      else None
  | None => None
  end.

(** [Object.assign(task, data)]: the keys that are paths of the schema are
    set on the document, the strings through [trim]; [position] and
    [subtasks] are not, and stay off the stored task. *)
Definition assignTask (t : Task.ITask) (data : UpdateTaskData) : Task.ITask :=
  {| Task.title := assignField (trim <$> u_title data) (Task.title t);
     Task.description := assignOpt (trim <$> u_description data) (Task.description t);
     Task.status := assignField (u_status data) (Task.status t);
     Task.priority := assignField (u_priority data) (Task.priority t);
     Task.projectId := Task.projectId t;
     Task.assigneeId := assignOpt (u_assigneeId data) (Task.assigneeId t);
     Task.creatorId := Task.creatorId t;
     Task.dueDate := assignOpt (u_dueDate data) (Task.dueDate t);
     Task.labels := assignField (u_labels data) (Task.labels t);
     Task.order := Task.order t;
     Task.isArchived := Task.isArchived t |}.

(** The validation that [save()] runs on a loaded task. *)
Definition validTask (t : Task.ITask) : bool :=
  Task.validFields (Task.title t) (Task.description t) (Task.status t)
    (Task.priority t).

(** The access check shared by the operations on an existing task:
    [if (!project || !project.isMember(userId)) throw ACCESS_DENIED]. *)
Definition projectOfMember (db : Db) (pid userId : ObjectId)
  : Result Project.IProject :=
  match projects db !! pid with
  | None => Err ACCESS_DENIED
  | Some project =>
      if negb (Project.isMember project userId) then Err ACCESS_DENIED
      else Ok project
  end.

(** [newId] is the [_id] that [new Task] generates. *)
Definition createTask (db : Db) (data : CreateTaskData) (createdById newId : ObjectId)
  : Result (ObjectId * Task.ITask * Db) :=
  project ← orThrow PROJECT_NOT_FOUND (projects db !! c_projectId data);
  throwIf (negb (Project.isMember project createdById)) ACCESS_DENIED;;
  match c_assigneeId data with
  | Some a => throwIf (negb (Project.isMember project a)) INVALID_ASSIGNEE
  | None => Ok tt
  end;;
  let lastTask := findLastTask db (c_projectId data) in
  let task := newTask data createdById (nextPosition lastTask) in
  stored ← orThrow VALIDATION_ERROR (validate task);
  throwIf (bool_decide (is_Some (tasks db !! newId))) DUPLICATE_KEY;;
  let db1 := setTasks db (<[newId := stored]> (tasks db)) in
  Ok (newId, stored,
      logActivity db1 (mkActivity "task.created" "task" newId createdById (c_projectId data))).

(** The query populates [createdById], which is no path of the task
    schema: it throws for every task that it finds, before the test
    [if (!task)] and the access check are reached. *)
Definition getTaskById (db : Db) (taskId userId : ObjectId)
  : Result (ObjectId * Task.ITask) :=
  found ← findOnePopulated Task.paths ["assigneeId"; "createdById"; "projectId"]
            (tasks db !! taskId);
  task ← orThrow TASK_NOT_FOUND found;
  projectOfMember db (Task.projectId task) userId;;
  Ok (taskId, task).

Definition updateTask (db : Db) (taskId : ObjectId) (data : UpdateTaskData)
  (userId : ObjectId) : Result (ObjectId * Task.ITask * Db) :=
  task ← orThrow TASK_NOT_FOUND (tasks db !! taskId);
  project ← projectOfMember db (Task.projectId task) userId;
  throwIf (negb (Project.hasPermission project userId Project.canManageTasks))
    INSUFFICIENT_PERMISSIONS;;
  let task' := assignTask task data in
  throwIf (negb (validTask task')) VALIDATION_ERROR;;
  let db1 := setTasks db (<[taskId := task']> (tasks db)) in
  Ok (taskId, task',
      logActivity db1 (mkActivity "task.updated" "task" taskId userId (Task.projectId task'))).

Definition deleteTask (db : Db) (taskId userId : ObjectId) : Result Db :=
  task ← orThrow TASK_NOT_FOUND (tasks db !! taskId);
  project ← projectOfMember db (Task.projectId task) userId;
  throwIf (negb (Project.hasPermission project userId Project.canManageTasks))
    INSUFFICIENT_PERMISSIONS;;
  let db1 := logActivity db (mkActivity "task.deleted" "task" taskId userId (Task.projectId task)) in
  Ok (setTasks db1 (delete taskId (tasks db1))).

(** [task.position = newPosition; await task.save()]: [position] is no
    path of the task schema, so the assignment sets a property of the
    object in memory and [save()], with no path modified, writes nothing.
    The new position reaches the log, in the details of the entry, and
    nothing else. *)
Definition updateTaskPosition (db : Db) (taskId : ObjectId) (newPosition : Z)
  (userId : ObjectId) : Result Db :=
  task ← orThrow TASK_NOT_FOUND (tasks db !! taskId);
  projectOfMember db (Task.projectId task) userId;;
  throwIf (negb (validTask task)) VALIDATION_ERROR;;
  Ok (logActivity db
        (mkActivity "task.position_changed" "task" taskId userId (Task.projectId task))).

(** *** Listing the tasks of a project *)

(** [.sort({ position: 1, createdAt: -1 })]: no stored task has a
    [position], so the first key ties everywhere and the newest task comes
    first.  [createdAt] gives the stamp that the store keeps for each
    document. *)
Definition listedBefore (createdAt : ObjectId → Date) (a b : ObjectId * Task.ITask)
  : Prop :=
  createdAt (fst b) ≤ createdAt (fst a).

#[global] Instance listedBefore_dec createdAt a b :
  Decision (listedBefore createdAt a b).
Proof. unfold listedBefore. apply _. Defined.

(** The query [{ projectId, isArchived: false }], with [status] added when
    the caller gives one. *)
Definition matchesProjectQuery (projectId : ObjectId) (status : option string)
  (t : Task.ITask) : bool :=
  bool_decide (Task.projectId t = projectId)
  && negb (Task.isArchived t)
  && match truthy status with
     | Some s => bool_decide (Task.status t = s)
     | None => true
     end.

(** The query populates [createdById] as [getTaskById] does, and throws as
    soon as one task matches. *)
Definition getProjectTasks (createdAt : ObjectId → Date) (db : Db)
  (projectId userId : ObjectId) (status : option string)
  : Result (list (ObjectId * Task.ITask)) :=
  projectOfMember db projectId userId;;
  found ← findPopulated Task.paths ["assigneeId"; "createdById"]
            (filter (fun it => matchesProjectQuery projectId status (snd it) = true)
                    (map_to_list (tasks db)));
  Ok (merge_sort (listedBefore createdAt) found).

End TaskService.

(** ** services/projectService.ts *)

Module ProjectService.

Record CreateProjectData : Type := mkCreateProjectData {
  c_name : string;
  c_description : option string;
  c_color : option string;
  c_settings : option Project.IProjectSettings
}.

Record UpdateProjectData : Type := mkUpdateProjectData {
  u_name : option string;
  u_description : option string;
  u_color : option string;
  u_status : option string;
  u_settings : option Project.IProjectSettings
}.

Record ProjectMemberData : Type := mkProjectMemberData {
  m_userId : ObjectId;
  m_role : string
}.

(** [new Project({...data, ownerId})]: the payload has no [members] field,
    so the member array starts out as the schema's empty array. *)
Definition newProject (data : CreateProjectData) (ownerId : ObjectId)
  : Project.IProject :=
  {| Project.name := c_name data;
     Project.description := c_description data;
     Project.color := c_color data;
     Project.status := None;
     Project.ownerId := ownerId;
     Project.members := [];
     Project.settings := c_settings data |}.

(** [Object.assign(project, data)] *)
Definition assignProject (p : Project.IProject) (data : UpdateProjectData)
  : Project.IProject :=
  {| Project.name := assignField (u_name data) (Project.name p);
     Project.description := assignOpt (u_description data) (Project.description p);
     Project.color := assignOpt (u_color data) (Project.color p);
     Project.status := assignOpt (u_status data) (Project.status p);
     Project.ownerId := Project.ownerId p;
     Project.members := Project.members p;
     Project.settings := assignOpt (u_settings data) (Project.settings p) |}.

(** The paths of [projectSchema] and of the member entries, by name. *)
Definition schemaPaths : list string :=
  ["name"; "key"; "description"; "ownerId"; "members"; "members.userId";
   "members.role"; "members.joinedAt"; "columns"; "settings"; "isActive"].

(** The required paths of [projectSchema], as the constructor fills
    them. *)
Record RequiredPaths : Type := mkRequiredPaths {
  r_name : option string;
  r_key : option string;
  r_ownerId : option ObjectId
}.

(** [new Project({...data, ownerId})]: [name] comes from the payload,
    through [trim]; [ownerId] is given; [key] is given by no field of
    [CreateProjectData]. *)
Definition requiredPaths (data : CreateProjectData) (ownerId : ObjectId)
  : RequiredPaths :=
  {| r_name := Some (trim (c_name data));
     r_key := None;
     r_ownerId := Some ownerId |}.

(** The validation that [save()] runs on a new project: every required
    path is there, the strings not empty. *)
Definition valid (r : RequiredPaths) : bool :=
  match r_name r, r_key r, r_ownerId r with
  | Some n, Some k, Some _ => present n && present k
  | _, _, _ => false
  end.

(** [newId] is the [_id] that [new Project] generates.  The activity entry
    names the project itself as the acting user, as the source does. *)
Definition createProject (db : Db) (data : CreateProjectData) (ownerId newId : ObjectId)
  : Result (ObjectId * Project.IProject * Db) :=
  let project := newProject data ownerId in
  throwIf (negb (valid (requiredPaths data ownerId))) VALIDATION_ERROR;;
  throwIf (bool_decide (is_Some (projects db !! newId))) DUPLICATE_KEY;;
  let db1 := setProjects db (<[newId := project]> (projects db)) in
  Ok (newId, project,
      logActivity db1 (mkActivity "project.created" "project" newId newId newId)).

(** [project.isMember(userId)] on a project that comes with
    [members.userId] populated.  [member.userId] is a user document there:
    its [toString()] is a printout of the document and no id, so the test
    of the callback is false for it.  For a user that does not exist it is
    [null], and [toString] throws. *)
Definition isMemberPopulated (db : Db) (p : Project.IProject) (u : ObjectId)
  : Result bool :=
  foldr (fun m rest =>
           match populatedUser db (Project.userId m) with
           | Some _ => rest
           | None => Err TYPE_ERROR
           end)
        (Ok false) (Project.members p).

Definition getProjectById (db : Db) (projectId userId : ObjectId)
  : Result (ObjectId * Project.IProject) :=
  found ← findOnePopulated schemaPaths ["ownerId"; "members.userId"]
            (projects db !! projectId);
  project ← orThrow PROJECT_NOT_FOUND found;
  member ← isMemberPopulated db project userId;
  throwIf (negb member) ACCESS_DENIED;;
  Ok (projectId, project).

Definition updateProject (db : Db) (projectId : ObjectId) (data : UpdateProjectData)
  (userId : ObjectId) : Result (ObjectId * Project.IProject * Db) :=
  project ← orThrow PROJECT_NOT_FOUND (projects db !! projectId);
  throwIf (negb (Project.hasPermission project userId Project.canEdit))
    INSUFFICIENT_PERMISSIONS;;
  let project' := assignProject project data in
  let db1 := setProjects db (<[projectId := project']> (projects db)) in
  Ok (projectId, project',
      logActivity db1 (mkActivity "project.updated" "project" projectId userId projectId)).

Definition deleteProject (db : Db) (projectId userId : ObjectId) : Result Db :=
  project ← orThrow PROJECT_NOT_FOUND (projects db !! projectId);
  throwIf (negb (Project.hasPermission project userId Project.canDelete))
    INSUFFICIENT_PERMISSIONS;;
  let db1 := logActivity db (mkActivity "project.deleted" "project" projectId userId projectId) in
  Ok (setProjects db1 (delete projectId (projects db1))).

(** [now] is the [new Date()] taken by [project.addMember]. *)
Definition addMember (db : Db) (projectId : ObjectId) (memberData : ProjectMemberData)
  (userId : ObjectId) (now : Date) : Result Db :=
  project ← orThrow PROJECT_NOT_FOUND (projects db !! projectId);
  throwIf (negb (Project.hasPermission project userId Project.canInvite))
    INSUFFICIENT_PERMISSIONS;;
  let project' := Project.addMember project (m_userId memberData) (m_role memberData) now in
  let db1 := setProjects db (<[projectId := project']> (projects db)) in
  Ok (logActivity db1
        (mkActivity "project.member_added" "project" projectId userId projectId)).

Definition removeMember (db : Db) (projectId memberUserId userId : ObjectId)
  : Result Db :=
  project ← orThrow PROJECT_NOT_FOUND (projects db !! projectId);
  throwIf (negb (Project.hasPermission project userId Project.canInvite))
    INSUFFICIENT_PERMISSIONS;;
  let project' := Project.removeMember project memberUserId in
  let db1 := setProjects db (<[projectId := project']> (projects db)) in
  Ok (logActivity db1
        (mkActivity "project.member_removed" "project" projectId userId projectId)).

Definition updateMemberRole (db : Db) (projectId memberUserId : ObjectId)
  (role : string) (userId : ObjectId) : Result Db :=
  project ← orThrow PROJECT_NOT_FOUND (projects db !! projectId);
  throwIf (negb (Project.hasPermission project userId Project.canInvite))
    INSUFFICIENT_PERMISSIONS;;
  let project' := Project.updateMemberRole project memberUserId role in
  let db1 := setProjects db (<[projectId := project']> (projects db)) in
  Ok (logActivity db1
        (mkActivity "project.member_role_changed" "project" projectId userId projectId)).

(** *** Listing projects *)

(** [.sort({ updatedAt: -1 })]: the most recently updated first.
    [updatedAt] gives the stamp that the store keeps for each document. *)
Definition updatedAfter (updatedAt : ObjectId → Date)
  (a b : ObjectId * Project.IProject) : Prop :=
  updatedAt (fst b) ≤ updatedAt (fst a).

#[global] Instance updatedAfter_dec updatedAt a b :
  Decision (updatedAfter updatedAt a b).
Proof. unfold updatedAfter. apply _. Defined.

(** The query of [getUserProjects]: the [$or] on owner and members, and
    [query.status = status] when a status is given. *)
Definition matchesUserQuery (userId : ObjectId) (status : option string)
  (p : Project.IProject) : bool :=
  ownedOrJoined userId p
  && match truthy status with
     | Some s => bool_decide (Project.status p = Some s)
     | None => true
     end.

Definition findUserProjects (updatedAt : ObjectId → Date) (db : Db)
  (userId : ObjectId) (status : option string)
  : list (ObjectId * Project.IProject) :=
  merge_sort (updatedAfter updatedAt)
    (filter (fun ip => matchesUserQuery userId status (snd ip) = true)
            (map_to_list (projects db))).

Definition getUserProjects (updatedAt : ObjectId → Date) (db : Db)
  (userId : ObjectId) (page limit : positive) (status : option string)
  : Page (ObjectId * Project.IProject) :=
  let found := findUserProjects updatedAt db userId status in
  {| items := paginate page limit found;
     total := length found;
     page := page;
     pages := pageCount (length found) limit |}.

End ProjectService.

(** ** services/commentService.ts *)

Module CommentService.

Record CreateCommentData : Type := mkCreateCommentData {
  c_content : string;
  c_taskId : ObjectId;
  (** [None] stands for a falsy [parentId]. *)
  c_parentId : option ObjectId;
  c_mentions : option (list ObjectId)
}.

Record UpdateCommentData : Type := mkUpdateCommentData {
  u_content : option string
}.

(** The document that the [Comment] constructor builds, before validation:
    the required path [body] may be missing from it. *)
Record NewComment : Type := mkNewComment {
  n_taskId : ObjectId;
  n_authorId : ObjectId;
  n_body : option string;
  n_mentions : list ObjectId;
  n_parentId : option ObjectId
}.

(** [new Comment({...data, taskId, authorId, parentId, mentions})]: the key
    [content] is no path of the schema and is dropped; no key gives
    [body]. *)
Definition newComment (data : CreateCommentData) (authorId : ObjectId) : NewComment :=
  {| n_taskId := c_taskId data;
     n_authorId := authorId;
     n_body := None;
     n_mentions := default [] (c_mentions data);
     n_parentId := c_parentId data |}.

(** The validation that [save()] runs on a new comment. *)
Definition validate (n : NewComment) : option Comment.IComment :=
  match n_body n with
  | Some b =>
      let c := {| Comment.taskId := n_taskId n;
                  Comment.authorId := n_authorId n;
                  Comment.body := b;
                  Comment.mentions := n_mentions n;
                  Comment.parentId := n_parentId n;
                  Comment.isEdited := false;
                  Comment.editedAt := None |} in
      if Comment.valid c then Some c else None
  | None => None
  end.

(** The response of [createComment] and [updateComment] is built from the
    comment fetched again with [authorId] and [mentions] populated, both
    paths of the schema.  It reads [populatedComment.authorId._id], which
    throws when no user document stands behind the author. *)
Definition commentResponse (db : Db) (commentId : ObjectId) (c : Comment.IComment)
  : Result (ObjectId * Comment.IComment) :=
  match populatedUser db (Comment.authorId c) with
  | Some _ => Ok (commentId, c)
  | None => Err TYPE_ERROR
  end.

(** [newId] is the [_id] that [new Comment] generates.  A call that gets
    as far as the store answers with the store it leaves and with the
    response, or the error thrown while building it. *)
Definition createComment (db : Db) (data : CreateCommentData) (authorId newId : ObjectId)
  : Result (Db * Result (ObjectId * Comment.IComment)) :=
  task ← orThrow TASK_NOT_FOUND (tasks db !! c_taskId data);
  TaskService.projectOfMember db (Task.projectId task) authorId;;
  match c_parentId data with
  | Some parentId =>
      match comments db !! parentId with
      | Some parentComment =>
          throwIf (negb (bool_decide (Comment.taskId parentComment = c_taskId data)))
            PARENT_COMMENT_NOT_FOUND
      | None => Err PARENT_COMMENT_NOT_FOUND
      end
  | None => Ok tt
  end;;
  stored ← orThrow VALIDATION_ERROR (validate (newComment data authorId));
  throwIf (bool_decide (is_Some (comments db !! newId))) DUPLICATE_KEY;;
  let db1 := setComments db (<[newId := stored]> (comments db)) in
  let db2 := logActivity db1
               (mkActivity "comment.created" "comment" newId authorId (Task.projectId task)) in
  Ok (db2, commentResponse db2 newId stored).

(** The author alone may edit: the project and its members are not looked
    at.  [Object.assign(comment, data)] sets [content], which is no path
    of the schema, so [save()] validates the comment and writes nothing.
    The entry logged carries the id of the task in the place of the
    project, as the source does. *)
Definition updateComment (db : Db) (commentId : ObjectId) (data : UpdateCommentData)
  (userId : ObjectId) : Result (Db * Result (ObjectId * Comment.IComment)) :=
  comment ← orThrow COMMENT_NOT_FOUND (comments db !! commentId);
  throwIf (negb (bool_decide (Comment.authorId comment = userId))) ACCESS_DENIED;;
  throwIf (negb (Comment.valid comment)) VALIDATION_ERROR;;
  let db1 := logActivity db
               (mkActivity "comment.updated" "comment" commentId userId (Comment.taskId comment)) in
  Ok (db1, commentResponse db1 commentId comment).

(** The methods [softDelete], [addReaction] and [removeReaction] that the
    next three operations call on the comment are defined nowhere in the
    comment model: the operations take them as arguments. *)
Definition deleteComment (softDelete : Comment.IComment → Comment.IComment)
  (db : Db) (commentId userId : ObjectId) : Result Db :=
  comment ← orThrow COMMENT_NOT_FOUND (comments db !! commentId);
  throwIf (negb (bool_decide (Comment.authorId comment = userId))) ACCESS_DENIED;;
  let comment' := softDelete comment in
  throwIf (negb (Comment.valid comment')) VALIDATION_ERROR;;
  let db1 := setComments db (<[commentId := comment']> (comments db)) in
  Ok (logActivity db1
        (mkActivity "comment.deleted" "comment" commentId userId (Comment.taskId comment))).

Definition addReaction
  (addReaction : Comment.IComment → ObjectId → string → Comment.IComment)
  (db : Db) (commentId : ObjectId) (emoji : string) (userId : ObjectId) : Result Db :=
  comment ← orThrow COMMENT_NOT_FOUND (comments db !! commentId);
  task ← orThrow TASK_NOT_FOUND (tasks db !! Comment.taskId comment);
  TaskService.projectOfMember db (Task.projectId task) userId;;
  let comment' := addReaction comment userId emoji in
  throwIf (negb (Comment.valid comment')) VALIDATION_ERROR;;
  let db1 := setComments db (<[commentId := comment']> (comments db)) in
  Ok (logActivity db1
        (mkActivity "comment.reaction_added" "comment" commentId userId (Task.projectId task))).

Definition removeReaction
  (removeReaction : Comment.IComment → ObjectId → string → Comment.IComment)
  (db : Db) (commentId : ObjectId) (emoji : string) (userId : ObjectId) : Result Db :=
  comment ← orThrow COMMENT_NOT_FOUND (comments db !! commentId);
  task ← orThrow TASK_NOT_FOUND (tasks db !! Comment.taskId comment);
  TaskService.projectOfMember db (Task.projectId task) userId;;
  let comment' := removeReaction comment userId emoji in
  throwIf (negb (Comment.valid comment')) VALIDATION_ERROR;;
  let db1 := setComments db (<[commentId := comment']> (comments db)) in
  Ok (logActivity db1
        (mkActivity "comment.reaction_removed" "comment" commentId userId (Task.projectId task))).

End CommentService.

(** ** Sample documents

    A small workspace used to run the definitions: [userX] owns project
    [projP] and is listed in it as its owner, [userY] is a plain member,
    [userV] a viewer, [userZ] and [userW] are not members.  [projP] has
    three tasks, spread over three statuses (one of them archived);
    project [projQ], of [userZ], holds one task.  Task [T0] carries two
    comments, one by [userY] and one by [userZ]. *)

Module Sample.

Definition userX : ObjectId := "65a1f0c2e4b0a1b2c3d4e001".
Definition userY : ObjectId := "65a1f0c2e4b0a1b2c3d4e002".
Definition userZ : ObjectId := "65a1f0c2e4b0a1b2c3d4e003".
Definition userW : ObjectId := "65a1f0c2e4b0a1b2c3d4e004".
Definition userV : ObjectId := "65a1f0c2e4b0a1b2c3d4e005".

Definition projP : ObjectId := "65b2a0c2e4b0a1b2c3d4f001".
Definition projQ : ObjectId := "65b2a0c2e4b0a1b2c3d4f002".
Definition projR : ObjectId := "65b2a0c2e4b0a1b2c3d4f003".

Definition T0 : ObjectId := "65c3b0c2e4b0a1b2c3d4a000".
Definition T1 : ObjectId := "65c3b0c2e4b0a1b2c3d4a001".
Definition T2 : ObjectId := "65c3b0c2e4b0a1b2c3d4a002".
Definition T3 : ObjectId := "65c3b0c2e4b0a1b2c3d4a003".
Definition TQ : ObjectId := "65c3b0c2e4b0a1b2c3d4a010".

Definition K0 : ObjectId := "65d4c0c2e4b0a1b2c3d4b000".
Definition K1 : ObjectId := "65d4c0c2e4b0a1b2c3d4b001".
Definition K2 : ObjectId := "65d4c0c2e4b0a1b2c3d4b002".

Definition projectData : ProjectService.CreateProjectData :=
  ProjectService.mkCreateProjectData "Roadmap" None (Some "#3B82F6") None.

(** What [createProject] builds for userX: an owner and no member entry. *)
Definition fresh : Project.IProject := ProjectService.newProject projectData userX.

Definition team : Project.IProject :=
  Project.mkProject "Roadmap" None (Some "#3B82F6") (Some "active") userX
    [Project.mkMember userX "owner" 1700000000000;
     Project.mkMember userY "member" 1700000100000;
     Project.mkMember userV "viewer" 1700000200000]
    None.

Definition other : Project.IProject :=
  Project.mkProject "Backoffice" None None (Some "active") userZ
    [Project.mkMember userZ "owner" 1700000000000] None.

Definition task (pid : ObjectId) (status : string) (assignee : option ObjectId)
  (order : Z) (archived : bool) : Task.ITask :=
  Task.mkTask "Task" None status "Medium" pid assignee userX None [] order archived.

Definition comment (tid author : ObjectId) (body : string) : Comment.IComment :=
  Comment.mkComment tid author body [] None false None.

Definition db : Db :=
  {| projects := <[projP := team]> (<[projQ := other]> ∅);
     tasks :=
       <[T0 := task projP "backlog" None 0 false]>
       (<[T1 := task projP "in-progress" (Some userY) 1 false]>
       (<[T2 := task projP "done" None 2 true]>
       (<[TQ := task projQ "backlog" None 10 false]> ∅)));
     comments :=
       <[K0 := comment T0 userY "Ready for review"]>
       (<[K1 := comment T0 userZ "Blocked on the backoffice"]> ∅);
     users := {[userX; userY; userZ; userW; userV]};
     activity := [] |}.

Definition taskData (assignee : option ObjectId) : TaskService.CreateTaskData :=
  TaskService.mkCreateTaskData "Write release notes" None None projP assignee None None None.

Definition renameData : ProjectService.UpdateProjectData :=
  ProjectService.mkUpdateProjectData (Some "Roadmap 2") None None None None.

Definition commentData : CommentService.CreateCommentData :=
  CommentService.mkCreateCommentData "Shipping on Friday" T0 None None.

Definition editData : CommentService.UpdateCommentData :=
  CommentService.mkUpdateCommentData (Some "Unblocked").

End Sample.

(** ** models/Task.ts: watchers

    The methods of the task schema, over the fields they read and write. *)

Module TaskModel.

Record ITaskWatcher : Type := mkWatcher {
  userId : ObjectId;
  addedAt : Date;
  addedBy : ObjectId
}.

Record ITask : Type := mkTask {
  status : string;
  updatedAt : Date;
  watchers : list ITaskWatcher
}.

Definition setWatchers (t : ITask) (ws : list ITaskWatcher) : ITask :=
  {| status := status t; updatedAt := updatedAt t; watchers := ws |}.

(** The virtual [watcherCount]. *)
Definition watcherCount (t : ITask) : nat := length (watchers t).

Definition isWatchedBy (t : ITask) (u : ObjectId) : bool :=
  existsb (fun w => bool_decide (userId w = u)) (watchers t).

(** [now] is the [new Date()] of the pushed entry. *)
Definition addWatcher (t : ITask) (u addedBy : ObjectId) (now : Date) : ITask :=
  if negb (isWatchedBy t u)
  then setWatchers t (watchers t ++ [mkWatcher u now addedBy])
  else t.

Definition removeWatcher (t : ITask) (u : ObjectId) : ITask :=
  setWatchers t (filter (fun w => userId w ≠ u) (watchers t)).

(** [movedBy] is received and not used. *)
Definition moveToStatus (t : ITask) (newStatus : string) (movedBy : ObjectId)
  (now : Date) : ITask :=
  {| status := newStatus; updatedAt := now; watchers := watchers t |}.

End TaskModel.

(** ** Histories of member operations

    The two methods that write the member array, as operations, and their
    effect in sequence on a project. *)

Inductive MemberOp : Type :=
| AddMember (u : ObjectId) (r : string) (now : Date)
| RemoveMember (u : ObjectId).

Definition applyMemberOp (p : Project.IProject) (op : MemberOp) : Project.IProject :=
  match op with
  | AddMember u r now => Project.addMember p u r now
  | RemoveMember u => Project.removeMember p u
  end.

Definition applyMemberOps (p : Project.IProject) (ops : list MemberOp)
  : Project.IProject :=
  foldl applyMemberOp p ops.

(** ** Sample stamps, for running the listings *)

Module SampleQueries.

(** Creation stamps: the ids of the sample tasks end in their order of
    creation. *)
Definition createdAt (id : ObjectId) : Date :=
  if bool_decide (id = Sample.T0) then 1700000000000
  else if bool_decide (id = Sample.T1) then 1700000001000
  else if bool_decide (id = Sample.T2) then 1700000002000
  else 1700000003000.

Definition updatedAt (id : ObjectId) : Date :=
  if bool_decide (id = Sample.projP) then 1700000005000
  else 1700000004000.

(** A store in which [userX] owns a further project, [projR], that has an
    empty member array, and a task [T3] sits in it. *)
Definition dbWithFresh : Db :=
  {| projects := <[Sample.projR := Sample.fresh]> (projects Sample.db);
     tasks := <[Sample.T3 := Sample.task Sample.projR "backlog" None 0 false]>
                (tasks Sample.db);
     comments := comments Sample.db;
     users := users Sample.db;
     activity := [] |}.

(** A store in which the user behind a member entry of [projQ] is gone. *)
Definition dbWithoutZ : Db :=
  {| projects := projects Sample.db;
     tasks := tasks Sample.db;
     comments := comments Sample.db;
     users := {[Sample.userX; Sample.userY]};
     activity := [] |}.

Definition watched : TaskModel.ITask :=
  TaskModel.mkTask "backlog" 1700000000000
    [TaskModel.mkWatcher Sample.userX 1700000000000 Sample.userX].

End SampleQueries.

(** * Properties *)

(** ** The membership model *)

Section Membership.

Import Project.

Implicit Types (p : IProject) (u : ObjectId) (m : IProjectMember) (r : string).

Lemma isMember_true_iff p u :
  isMember p u = true ↔ ∃ m, m ∈ members p ∧ userId m = u.
Proof.
  unfold isMember. rewrite existsb_exists. split.
  - intros (m & Hin & Hm). exists m. split; [by apply list_elem_of_In|].
    by apply bool_decide_eq_true in Hm.
  - intros (m & Hin & Hm). exists m. split; [by apply list_elem_of_In|].
    by apply bool_decide_eq_true.
Qed.

Lemma isMember_ids p u :
  isMember p u = bool_decide (u ∈ userId <$> members p).
Proof.
  apply eq_true_iff_eq. rewrite isMember_true_iff, bool_decide_eq_true.
  rewrite list_elem_of_fmap. split.
  - intros (m & Hin & Hm). by exists m.
  - intros (m & Hm & Hin). by exists m.
Qed.

Lemma isMember_false_find p u :
  isMember p u = false ↔ list_find (sameUser u) (members p) = None.
Proof.
  rewrite list_find_None, Forall_forall, <- not_true_iff_false, isMember_true_iff.
  unfold sameUser. split.
  - intros Hno m Hin Hm. apply Hno. by exists m.
  - intros Hall (m & Hin & Hm). by apply (Hall m).
Qed.

Lemma find_isMember p u i m :
  list_find (sameUser u) (members p) = Some (i, m) →
  isMember p u = true ∧ members p !! i = Some m ∧ userId m = u.
Proof.
  intros (Hi & Hm & _)%list_find_Some. split_and!; [|done..].
  apply isMember_true_iff. exists m. split; [|done].
  by eapply list_elem_of_lookup_2.
Qed.

Lemma getMemberRole_None_iff p u :
  getMemberRole p u = None ↔ isMember p u = false.
Proof.
  rewrite isMember_false_find. unfold getMemberRole.
  destruct (list_find _ _) as [[i m]|]; naive_solver.
Qed.

(** A user without an entry has no capability at all. *)
Lemma hasPermission_closed p u (c : Capability) :
  isMember p u = false → hasPermission p u c = false.
Proof.
  intros Hm%getMemberRole_None_iff. unfold hasPermission. by rewrite Hm.
Qed.

(** With at most one entry per user, any entry of the user is the one that
    [find] returns. *)
Lemma find_unique p u i m :
  NoDup (userId <$> members p) →
  members p !! i = Some m → userId m = u →
  list_find (sameUser u) (members p) = Some (i, m).
Proof.
  intros Hnd Hi Hu. apply list_find_Some. split_and!; [done..|].
  intros j y Hj Hlt Hy. unfold sameUser in Hy.
  assert (j = i) as ->; [|lia].
  eapply (NoDup_lookup _ j i u); [done| |]; rewrite list_lookup_fmap.
  - by rewrite Hj; simpl; rewrite Hy.
  - by rewrite Hi; simpl; rewrite Hu.
Qed.

Lemma ids_insert_setRole (l : list IProjectMember) i m r :
  l !! i = Some m →
  userId <$> <[i := setRole m r]> l = userId <$> l.
Proof.
  intros Hi. rewrite list_fmap_insert. apply list_insert_id.
  by rewrite list_lookup_fmap, Hi.
Qed.

Lemma addMember_ids p u r now :
  userId <$> members (addMember p u r now) =
  if isMember p u then userId <$> members p
  else ((userId <$> members p) ++ [u])%list.
Proof.
  unfold addMember.
  destruct (list_find _ _) as [[i m]|] eqn:Hf.
  - apply find_isMember in Hf as (-> & Hi & _). simpl.
    by apply ids_insert_setRole.
  - apply isMember_false_find in Hf as ->. simpl. by rewrite fmap_app.
Qed.

Lemma addMember_NoDup p u r now :
  NoDup (userId <$> members p) →
  NoDup (userId <$> members (addMember p u r now)).
Proof.
  intros Hnd. rewrite addMember_ids. destruct (isMember p u) eqn:Hm; [done|].
  apply NoDup_app. split_and!; [done| |apply NoDup_singleton].
  intros x Hx ->%list_elem_of_singleton.
  rewrite isMember_ids in Hm. by apply bool_decide_eq_false in Hm.
Qed.

Lemma addMember_isMember p u r now : isMember (addMember p u r now) u = true.
Proof.
  rewrite isMember_ids, addMember_ids. apply bool_decide_eq_true.
  destruct (isMember p u) eqn:Hm.
  - rewrite isMember_ids in Hm. by apply bool_decide_eq_true in Hm.
  - apply elem_of_app. right. by apply list_elem_of_singleton.
Qed.

(** The first call leaves an entry for the user whose role is the one
    given; [find] returns it on the second call. *)
Lemma addMember_find p u r now :
  ∃ i m, list_find (sameUser u) (members (addMember p u r now)) = Some (i, m)
         ∧ role m = r.
Proof.
  unfold addMember.
  destruct (list_find (sameUser u) (members p)) as [[i m]|] eqn:Hf; simpl.
  - exists i, (setRole m r). split; [|done].
    apply list_find_Some in Hf as (Hi & Hm & Hleast).
    apply list_find_insert_Some. right; left.
    split_and!; [done..|by eapply lookup_lt_Some|done|done].
  - exists (length (members p)), (mkMember u r now). split; [|done].
    rewrite list_find_app_r by done. simpl.
    rewrite decide_True by done. done.
Qed.

Lemma addMember_idem p u r now now' :
  addMember (addMember p u r now) u r now' = addMember p u r now.
Proof.
  destruct (addMember_find p u r now) as (i & m & Hf & Hr).
  unfold addMember at 1. rewrite Hf.
  destruct (addMember p u r now) as [n d c s o ms st]; simpl in *.
  unfold setMembers; simpl. f_equal.
  apply list_insert_id. apply list_find_Some in Hf as (Hi & _).
  rewrite Hi. f_equal. destruct m; simpl in *. by subst.
Qed.

Lemma filter_unique_id (l : list IProjectMember) i m :
  NoDup (userId <$> l) → l !! i = Some m →
  filter (sameUser (userId m)) l = [m].
Proof.
  revert i. induction l as [|x l IH]; intros i Hnd Hi; [done|].
  simpl in Hnd. apply NoDup_cons in Hnd as [Hx Hnd].
  destruct i as [|i]; simpl in Hi.
  - injection Hi as ->. rewrite filter_cons_True by done. f_equal.
    destruct (filter _ l) as [|y k] eqn:Hk; [done|].
    assert (y ∈ filter (sameUser (userId m)) l) as [Hy Hin]%list_elem_of_filter
      by (rewrite Hk; apply elem_of_cons; by left).
    destruct Hx. apply list_elem_of_fmap. exists y. by rewrite Hy.
  - rewrite filter_cons_False; [by eapply IH|].
    intros Hsame. apply Hx. apply list_elem_of_fmap. exists m.
    split; [done|]. by eapply list_elem_of_lookup_2.
Qed.

End Membership.

(** ** The services *)

(** Runs a service body: unfolds the binds and the throwing helpers and
    splits on every lookup and test met on the way. *)
Ltac run_service :=
  unfold mbind, Result_bind, orThrow, throwIf, TaskService.projectOfMember in *;
  repeat (case_match; simplify_eq/=); try done.

(** ** Membership and permissions: the statements *)

Section MembershipClaims.

Import Project.

(** C1. [isMember] answers from the member array alone: it is true exactly
    when the user appears in [members], and the owner reference is never
    consulted.  For the project that [createProject] builds for a user
    (owner set, no member entry) it therefore answers [false] for the owner,
    where the specification asks for [true], and where [canManage], which
    looks at the owner reference first, answers [true]. *)
Theorem isMember_consults_members_only :
  (∀ (p : IProject) (u : ObjectId),
     isMember p u = bool_decide (u ∈ userId <$> members p))
  ∧ ownerId Sample.fresh = Sample.userX
  ∧ isMember Sample.fresh Sample.userX = false
  ∧ canManage Sample.fresh Sample.userX = true.
Proof. split; [exact isMember_ids|]. repeat split; reflexivity. Qed.

(** C3. [getMemberRole] returns the stored role of the first entry of the
    user and [null] when there is none; it has no case for the owner.  For
    the owner of a project without a member entry of their own it returns
    [null], where the specification asks for the role [owner]. *)
Theorem getMemberRole_owner_not_implicit :
  (∀ n d c s (owner : ObjectId) st,
     getMemberRole (mkProject n d c s owner [] st) owner = None)
  ∧ ownerId Sample.fresh = Sample.userX
  ∧ getMemberRole Sample.fresh Sample.userX = None
  ∧ getMemberRole Sample.team Sample.userY = Some "member"
  ∧ getMemberRole Sample.team Sample.userZ = None.
Proof. split; [done|]. repeat split; reflexivity. Qed.

(** C2. [hasPermission] follows the role found by [getMemberRole] through
    the capability table: every capability for [owner], all but [canDelete]
    for [admin], [canManageTasks] alone for [member], none for [viewer];
    it is [false] for a user who is not a member; and whenever it is [true]
    the pair of role and capability is one the table lists. *)
Theorem hasPermission_table (p : IProject) (u : ObjectId) (c : Capability) :
  match getMemberRole p u with
  | Some r =>
      (r = "owner" → hasPermission p u c = true)
      ∧ (r = "admin" → hasPermission p u c = negb (bool_decide (c = canDelete)))
      ∧ (r = "member" → hasPermission p u c = bool_decide (c = canManageTasks))
      ∧ (r = "viewer" → hasPermission p u c = false)
      ∧ (hasPermission p u c = true →
           r = "owner"
           ∨ (r = "admin" ∧ c ∈ [canEdit; canInvite; canManageTasks])
           ∨ (r = "member" ∧ c = canManageTasks))
  | None => hasPermission p u c = false
  end
  ∧ (isMember p u = false → hasPermission p u c = false).
Proof.
  split.
  - unfold hasPermission. destruct (getMemberRole p u) as [r|]; [|done].
    split_and!.
    + intros ->. by destruct c.
    + intros ->. by destruct c.
    + intros ->. by destruct c.
    + intros ->. by destruct c.
    + unfold roleCapabilities. intros Hc%bool_decide_eq_true.
      repeat case_bool_decide; subst.
      * by left.
      * right; left. by split.
      * right; right. split; [done|]. by apply list_elem_of_singleton in Hc.
      * by apply not_elem_of_nil in Hc.
  - intros Hm%getMemberRole_None_iff. unfold hasPermission. by rewrite Hm.
Qed.

Lemma hasPermission_table_witness :
  hasPermission Sample.team Sample.userX canDelete = true
  ∧ hasPermission Sample.team Sample.userY canManageTasks = true
  ∧ hasPermission Sample.team Sample.userY canDelete = false
  ∧ hasPermission Sample.team Sample.userV canManageTasks = false
  ∧ hasPermission Sample.team Sample.userZ canEdit = false.
Proof.
  split_and!.
  - exact (proj1 (proj1 (hasPermission_table Sample.team Sample.userX canDelete))
             eq_refl).
  - exact (proj1 (proj2 (proj2 (proj1
             (hasPermission_table Sample.team Sample.userY canManageTasks))))
             eq_refl).
  - exact (proj1 (proj2 (proj2 (proj1
             (hasPermission_table Sample.team Sample.userY canDelete))))
             eq_refl).
  - exact (proj1 (proj2 (proj2 (proj2 (proj1
             (hasPermission_table Sample.team Sample.userV canManageTasks)))))
             eq_refl).
  - exact (proj2 (hasPermission_table Sample.team Sample.userZ canEdit) eq_refl).
Defined.

End MembershipClaims.

Section MemberUpdates.

Import Project.

(** C6. [addMember] is an idempotent upsert.  In a project with at most one
    entry per user: an entry of the user has its role overwritten where it
    stands, the rest of the array being untouched; a user without an entry
    gets one appended, joined now; a second call with the same user and role
    changes nothing; and after it the array holds exactly one entry of the
    user, with that role. *)
Theorem addMember_idempotent_upsert (p : IProject) (u : ObjectId) (r : string)
  (now now' : Date) :
  NoDup (userId <$> members p) →
  (∀ (i : nat) (m : IProjectMember),
     members p !! i = Some m → userId m = u →
     members (addMember p u r now) = <[i := setRole m r]> (members p))
  ∧ (isMember p u = false →
     members (addMember p u r now) = (members p ++ [mkMember u r now])%list)
  ∧ addMember (addMember p u r now) u r now' = addMember p u r now
  ∧ (∃ m : IProjectMember,
       filter (sameUser u) (members (addMember (addMember p u r now) u r now')) = [m]
       ∧ userId m = u ∧ role m = r)
  ∧ NoDup (userId <$> members (addMember (addMember p u r now) u r now')).
Proof.
  intros Hnd. split_and!.
  - intros i m Hi Hu. unfold addMember.
    by rewrite (find_unique p u i m Hnd Hi Hu).
  - intros Hf%isMember_false_find. unfold addMember. by rewrite Hf.
  - apply addMember_idem.
  - rewrite addMember_idem.
    destruct (addMember_find p u r now) as (i & m & Hf & Hr).
    apply list_find_Some in Hf as (Hi & Hu & _). unfold sameUser in Hu.
    exists m. split_and!; [|done..].
    subst u. eapply filter_unique_id; [|done].
    by apply addMember_NoDup.
  - rewrite addMember_idem. by apply addMember_NoDup.
Qed.

Lemma addMember_idempotent_upsert_witness :
  members (addMember Sample.team Sample.userY "admin" 1700000300000)
  = [mkMember Sample.userX "owner" 1700000000000;
     mkMember Sample.userY "admin" 1700000100000;
     mkMember Sample.userV "viewer" 1700000200000]
  ∧ addMember (addMember Sample.fresh Sample.userW "member" 1700000300000)
              Sample.userW "member" 1700000400000
    = addMember Sample.fresh Sample.userW "member" 1700000300000.
Proof.
  split.
  - refine (proj1 (addMember_idempotent_upsert Sample.team Sample.userY "admin"
                     1700000300000 1700000400000 _)
              1%nat (mkMember Sample.userY "member" 1700000100000) eq_refl eq_refl).
    apply (bool_decide_unpack _). vm_compute. exact I.
  - refine (proj1 (proj2 (proj2
              (addMember_idempotent_upsert Sample.fresh Sample.userW "member"
                 1700000300000 1700000400000 _)))).
    apply (bool_decide_unpack _). vm_compute. exact I.
Defined.

(** C8. [updateMemberRole] on a user who has no entry in the member array
    changes nothing: the project comes back as it was, so no entry is
    created; and the service call built on it, made by a user who may
    invite, succeeds and stores the same projects and tasks. *)
Theorem updateMemberRole_non_member_noop (p : IProject) (u : ObjectId) (r : string) :
  isMember p u = false →
  updateMemberRole p u r = p
  ∧ members (updateMemberRole p u r) = members p
  ∧ isMember (updateMemberRole p u r) u = false
  ∧ ∀ (db : Db) (pid actor : ObjectId),
      projects db !! pid = Some p →
      hasPermission p actor canInvite = true →
      ∃ db', ProjectService.updateMemberRole db pid u r actor = Ok db'
             ∧ projects db' = projects db ∧ tasks db' = tasks db.
Proof.
  intros Hm.
  assert (updateMemberRole p u r = p) as Hid.
  { unfold updateMemberRole. apply isMember_false_find in Hm. by rewrite Hm. }
  rewrite Hid. split_and!; [done..|].
  intros db pid actor Hp Hperm. unfold ProjectService.updateMemberRole.
  rewrite Hp. simpl. rewrite Hperm. simpl. rewrite Hid.
  eexists. split; [done|]. simpl. split; [|done].
  by apply insert_id.
Qed.

Lemma updateMemberRole_non_member_noop_witness :
  updateMemberRole Sample.team Sample.userZ "admin" = Sample.team
  ∧ ∃ db', ProjectService.updateMemberRole Sample.db Sample.projP Sample.userZ
             "admin" Sample.userX = Ok db'
           ∧ projects db' = projects Sample.db.
Proof.
  pose proof (updateMemberRole_non_member_noop Sample.team Sample.userZ "admin"
                eq_refl) as (Hid & _ & _ & Hsvc).
  split; [exact Hid|].
  destruct (Hsvc Sample.db Sample.projP Sample.userX eq_refl eq_refl)
    as (db' & Hrun & Hprojects & _).
  exists db'. by split.
Defined.

End MemberUpdates.

(** ** Task ordering: the statements *)

Section TaskOrdering.

Import Task TaskService.

Lemma validate_newTask (data : CreateTaskData) (u : ObjectId) (pos : JsNumber) :
  validate (newTask data u pos) = None.
Proof. done. Qed.

Lemma createTask_not_Ok (db : Db) (data : CreateTaskData) (u nid : ObjectId)
  (r : ObjectId * ITask * Db) :
  createTask db data u nid ≠ Ok r.
Proof. unfold createTask. rewrite validate_newTask. run_service. Qed.

Lemma createTask_rejected (db : Db) (data : CreateTaskData) (u nid : ObjectId)
  (p : Project.IProject) :
  projects db !! c_projectId data = Some p →
  Project.isMember p u = true →
  (∀ a, c_assigneeId data = Some a → Project.isMember p a = true) →
  createTask db data u nid = Err VALIDATION_ERROR.
Proof.
  intros Hp Hu Ha. unfold createTask. rewrite Hp. simpl. rewrite Hu. simpl.
  destruct (c_assigneeId data) as [a|]; [rewrite (Ha a eq_refl)|]; done.
Qed.

(** C4. [createTask] takes the position of the new task from the
    [position] of a task of the project and hands it to the constructor
    under that name, with the creator as [createdById].  The task schema
    has neither path (it has [order] and [creatorId]): the position read
    from a stored task is [undefined], so the number computed for a project
    that has tasks is [NaN], and 0 for a project without; the document
    built carries neither the number nor the creator; and [save()] rejects
    it, because [creatorId] is required.  No call creates a task: a call
    that passes the checks on project, membership and assignee ends in a
    validation error and the tasks are stored as before.  For the project
    of the sample, whose three tasks the specification would follow with
    position 3, the member's call fails. *)
Theorem createTask_assigns_no_position :
  (∀ (db : Db) (data : CreateTaskData) (u nid : ObjectId) r,
     createTask db data u nid ≠ Ok r)
  ∧ (∀ (db : Db) (data : CreateTaskData) (u nid : ObjectId) (p : Project.IProject),
     projects db !! c_projectId data = Some p →
     Project.isMember p u = true →
     (∀ a, c_assigneeId data = Some a → Project.isMember p a = true) →
     createTask db data u nid = Err VALIDATION_ERROR)
  ∧ (∀ t : ITask, nextPosition (Some t) = NaN)
  ∧ nextPosition None = Num 0
  ∧ (∀ (data : CreateTaskData) (u : ObjectId) (pos : JsNumber),
     n_creatorId (newTask data u pos) = None
     ∧ n_order (newTask data u pos) = 0
     ∧ validate (newTask data u pos) = None)
  ∧ ("position" ∉ Task.paths)
  ∧ ("createdById" ∉ Task.paths)
  ∧ ("order" ∈ Task.paths)
  ∧ ("creatorId" ∈ Task.paths)
  ∧ Project.isMember Sample.team Sample.userY = true
  ∧ order <$> filter (fun t => projectId t = Sample.projP)
                (snd <$> map_to_list (tasks Sample.db)) ≡ₚ [0; 1; 2]
  ∧ nextPosition (findLastTask Sample.db Sample.projP) = NaN
  ∧ createTask Sample.db (Sample.taskData None) Sample.userY Sample.T3
    = Err VALIDATION_ERROR.
Proof.
  split_and!.
  - apply createTask_not_Ok.
  - apply createTask_rejected.
  - done.
  - done.
  - done.
  - apply (bool_decide_unpack _). by vm_compute.
  - apply (bool_decide_unpack _). by vm_compute.
  - apply (bool_decide_unpack _). by vm_compute.
  - apply (bool_decide_unpack _). by vm_compute.
  - reflexivity.
  - apply (bool_decide_unpack _). by vm_compute.
  - reflexivity.
  - reflexivity.
Qed.

End TaskOrdering.

Section TaskMoves.

Import Task TaskService.

Lemma updateTaskPosition_Ok (db : Db) (tid : ObjectId) (n : Z) (u : ObjectId)
  (db' : Db) :
  updateTaskPosition db tid n u = Ok db' →
  ∃ t, tasks db !! tid = Some t
       ∧ db' = logActivity db
                 (mkActivity "task.position_changed" "task" tid u (projectId t)).
Proof.
  unfold updateTaskPosition. intros Hrun.
  destruct (tasks db !! tid) as [t|] eqn:Ht; [|done]. simpl in Hrun.
  destruct (projectOfMember db (projectId t) u) as [p|e]; [|done].
  simpl in Hrun. destruct (validTask t); [|done]. simpl in Hrun.
  injection Hrun as <-. by exists t.
Qed.

Lemma updateTaskPosition_succeeds (db : Db) (tid : ObjectId) (n : Z) (u : ObjectId)
  (t : ITask) (p : Project.IProject) :
  tasks db !! tid = Some t →
  projects db !! projectId t = Some p →
  Project.isMember p u = true →
  validTask t = true →
  updateTaskPosition db tid n u
  = Ok (logActivity db (mkActivity "task.position_changed" "task" tid u (projectId t))).
Proof.
  intros Ht Hp Hu Hv. unfold updateTaskPosition, projectOfMember.
  rewrite Ht. simpl. rewrite Hp, Hu. simpl. by rewrite Hv.
Qed.

(** C5. [updateTaskPosition] assigns the number to [task.position] and
    saves.  [position] is no path of the task schema, so nothing of it is
    written: a successful call leaves every task, the moved one included,
    and every project and comment stored as before, and appends one entry
    to the log.  The call does succeed for a member of the task's project
    on a task that satisfies the schema, whatever the number.  In the
    sample the member's move of [T0] to 2 is answered with success and [T0]
    is stored as it was, its [order] still 0. *)
Theorem updateTaskPosition_stores_no_position :
  (∀ (db : Db) (tid : ObjectId) (n : Z) (u : ObjectId) (db' : Db),
     updateTaskPosition db tid n u = Ok db' →
     tasks db' = tasks db
     ∧ projects db' = projects db
     ∧ comments db' = comments db
     ∧ length (activity db') = S (length (activity db)))
  ∧ (∀ (db : Db) (tid : ObjectId) (n : Z) (u : ObjectId) (t : ITask)
       (p : Project.IProject),
     tasks db !! tid = Some t →
     projects db !! projectId t = Some p →
     Project.isMember p u = true →
     validTask t = true →
     ∃ db', updateTaskPosition db tid n u = Ok db')
  ∧ ("position" ∉ Task.paths)
  ∧ ∃ db',
      updateTaskPosition Sample.db Sample.T0 2 Sample.userY = Ok db'
      ∧ tasks db' !! Sample.T0 = Some (Sample.task Sample.projP "backlog" None 0 false)
      ∧ tasks db' = tasks Sample.db.
Proof.
  split_and!.
  - intros db tid n u db' (t & _ & ->)%updateTaskPosition_Ok. simpl.
    split_and!; [done..|]. rewrite length_app. simpl. lia.
  - intros db tid n u t p Ht Hp Hu Hv. eexists.
    by apply (updateTaskPosition_succeeds db tid n u t p).
  - apply (bool_decide_unpack _). by vm_compute.
  - eexists. split; [reflexivity|]. split; reflexivity.
Qed.

End TaskMoves.

(** ** The order of the checks *)

Section CheckOrder.

Import Task.

Lemma projectOfMember_denied (db : Db) (pid u : ObjectId) :
  (∀ p, projects db !! pid = Some p → Project.isMember p u = false) →
  TaskService.projectOfMember db pid u = Err ACCESS_DENIED.
Proof.
  intros Hnon. unfold TaskService.projectOfMember.
  destruct (projects db !! pid) as [p|] eqn:Hp; [|done].
  by rewrite (Hnon p eq_refl).
Qed.

(** The roles that the member schema can store all carry
    [canManageTasks]. *)
Lemma stored_roles_manage_tasks (p : Project.IProject) (u : ObjectId) :
  Forall (fun m => Project.role m ∈ ["owner"; "admin"; "member"]) (Project.members p) →
  Project.isMember p u = true →
  Project.hasPermission p u Project.canManageTasks = true.
Proof.
  intros Hroles Hu. unfold Project.hasPermission, Project.getMemberRole.
  destruct (list_find (Project.sameUser u) (Project.members p)) as [[i m]|] eqn:Hf.
  - apply list_find_Some in Hf as (Hi & _ & _).
    rewrite Forall_forall in Hroles.
    specialize (Hroles m (list_elem_of_lookup_2 _ _ _ Hi)).
    set_unfold in Hroles. destruct Hroles as [->|[->|[->|[]]]]; done.
  - apply isMember_false_find in Hf. congruence.
Qed.

(** C7. As the claim states it, the order "not found, then access denied
    for a non-member" fails outside the task service.  A user who is not a
    member of an existing project and asks to update it is answered
    [INSUFFICIENT_PERMISSIONS], not [ACCESS_DENIED]; the same user, who is
    the author of a comment on a task of that project, may edit the
    comment; and a member of the project who is not the author of a
    comment is answered [ACCESS_DENIED]. *)
Lemma non_member_not_always_access_denied :
  projects Sample.db !! Sample.projP = Some Sample.team
  ∧ Project.isMember Sample.team Sample.userZ = false
  ∧ ProjectService.updateProject Sample.db Sample.projP Sample.renameData Sample.userZ
    = Err INSUFFICIENT_PERMISSIONS
  ∧ ProjectService.updateProject Sample.db Sample.projP Sample.renameData Sample.userZ
    ≠ Err ACCESS_DENIED
  ∧ (Task.projectId <$> tasks Sample.db !! Sample.T0) = Some Sample.projP
  ∧ (Comment.taskId <$> comments Sample.db !! Sample.K1) = Some Sample.T0
  ∧ (Comment.authorId <$> comments Sample.db !! Sample.K1) = Some Sample.userZ
  ∧ (∃ r, CommentService.updateComment Sample.db Sample.K1 Sample.editData Sample.userZ
          = Ok r)
  ∧ CommentService.updateComment Sample.db Sample.K1 Sample.editData Sample.userZ
    ≠ Err ACCESS_DENIED
  ∧ Project.isMember Sample.team Sample.userY = true
  ∧ CommentService.updateComment Sample.db Sample.K1 Sample.editData Sample.userY
    = Err ACCESS_DENIED.
Proof.
  split_and!; try reflexivity.
  - by vm_compute.
  - eexists. reflexivity.
  - by vm_compute.
Qed.

(** C7, amended.  The mutating operations on a task check in a fixed
    order: the task is looked up first ([TASK_NOT_FOUND]); then the acting
    user must be a member of the task's project ([ACCESS_DENIED], also when
    that project is gone); only then do [updateTask] and [deleteTask] ask
    for [canManageTasks] ([INSUFFICIENT_PERMISSIONS]), which every role
    that the member schema can store carries.  [createTask] looks the
    project up ([PROJECT_NOT_FOUND]) and then checks membership
    ([ACCESS_DENIED]).  So a non-member asking for a mutating task
    operation is always answered [ACCESS_DENIED].  Of the operations on
    comments, [createComment], [addReaction] and [removeReaction] look up
    what they are given and the task behind it ([COMMENT_NOT_FOUND],
    [TASK_NOT_FOUND]) and then check membership in the task's project
    ([ACCESS_DENIED]); [updateComment] and [deleteComment] look the comment
    up and answer [ACCESS_DENIED] exactly to a user who is not its author,
    member or not; none of the five asks for a capability.  The operations
    on a project look the project up ([PROJECT_NOT_FOUND]) and then check
    the capability alone: a non-member is answered
    [INSUFFICIENT_PERMISSIONS] there, and none of them ever answers
    [ACCESS_DENIED]. *)
Theorem service_checks_in_order (db : Db) (u : ObjectId) :
  (∀ tid, tasks db !! tid = None →
     (∀ d, TaskService.updateTask db tid d u = Err TASK_NOT_FOUND)
     ∧ TaskService.deleteTask db tid u = Err TASK_NOT_FOUND
     ∧ (∀ n, TaskService.updateTaskPosition db tid n u = Err TASK_NOT_FOUND))
  ∧ (∀ tid t, tasks db !! tid = Some t →
     (∀ p, projects db !! projectId t = Some p → Project.isMember p u = false) →
     (∀ d, TaskService.updateTask db tid d u = Err ACCESS_DENIED)
     ∧ TaskService.deleteTask db tid u = Err ACCESS_DENIED
     ∧ (∀ n, TaskService.updateTaskPosition db tid n u = Err ACCESS_DENIED))
  ∧ (∀ tid t p, tasks db !! tid = Some t →
     projects db !! projectId t = Some p →
     Project.isMember p u = true →
     (Project.hasPermission p u Project.canManageTasks = false →
      (∀ d, TaskService.updateTask db tid d u = Err INSUFFICIENT_PERMISSIONS)
      ∧ TaskService.deleteTask db tid u = Err INSUFFICIENT_PERMISSIONS)
     ∧ (Forall (fun m => Project.role m ∈ ["owner"; "admin"; "member"])
          (Project.members p) →
        Project.hasPermission p u Project.canManageTasks = true)
     ∧ (∀ d, TaskService.updateTask db tid d u ≠ Err ACCESS_DENIED)
     ∧ TaskService.deleteTask db tid u ≠ Err ACCESS_DENIED
     ∧ (∀ n, TaskService.updateTaskPosition db tid n u ≠ Err ACCESS_DENIED))
  ∧ (∀ tid n, TaskService.updateTaskPosition db tid n u ≠ Err INSUFFICIENT_PERMISSIONS)
  ∧ (∀ data nid, projects db !! TaskService.c_projectId data = None →
     TaskService.createTask db data u nid = Err PROJECT_NOT_FOUND)
  ∧ (∀ data nid p, projects db !! TaskService.c_projectId data = Some p →
     Project.isMember p u = false →
     TaskService.createTask db data u nid = Err ACCESS_DENIED)
  ∧ (∀ data nid, TaskService.createTask db data u nid ≠ Err INSUFFICIENT_PERMISSIONS)
  ∧ (∀ data nid, tasks db !! CommentService.c_taskId data = None →
     CommentService.createComment db data u nid = Err TASK_NOT_FOUND)
  ∧ (∀ data nid t, tasks db !! CommentService.c_taskId data = Some t →
     (∀ p, projects db !! projectId t = Some p → Project.isMember p u = false) →
     CommentService.createComment db data u nid = Err ACCESS_DENIED)
  ∧ (∀ cid, comments db !! cid = None →
     (∀ d, CommentService.updateComment db cid d u = Err COMMENT_NOT_FOUND)
     ∧ (∀ softDelete,
          CommentService.deleteComment softDelete db cid u = Err COMMENT_NOT_FOUND)
     ∧ (∀ addReaction e,
          CommentService.addReaction addReaction db cid e u = Err COMMENT_NOT_FOUND)
     ∧ (∀ removeReaction e,
          CommentService.removeReaction removeReaction db cid e u
          = Err COMMENT_NOT_FOUND))
  ∧ (∀ cid c, comments db !! cid = Some c →
     (Comment.authorId c ≠ u →
      (∀ d, CommentService.updateComment db cid d u = Err ACCESS_DENIED)
      ∧ (∀ softDelete,
           CommentService.deleteComment softDelete db cid u = Err ACCESS_DENIED))
     ∧ (Comment.authorId c = u →
        (∀ d, CommentService.updateComment db cid d u ≠ Err ACCESS_DENIED)
        ∧ (∀ softDelete,
             CommentService.deleteComment softDelete db cid u ≠ Err ACCESS_DENIED)))
  ∧ (∀ cid c, comments db !! cid = Some c →
     tasks db !! Comment.taskId c = None →
     (∀ addReaction e,
        CommentService.addReaction addReaction db cid e u = Err TASK_NOT_FOUND)
     ∧ (∀ removeReaction e,
          CommentService.removeReaction removeReaction db cid e u = Err TASK_NOT_FOUND))
  ∧ (∀ cid c t, comments db !! cid = Some c →
     tasks db !! Comment.taskId c = Some t →
     (∀ p, projects db !! projectId t = Some p → Project.isMember p u = false) →
     (∀ addReaction e,
        CommentService.addReaction addReaction db cid e u = Err ACCESS_DENIED)
     ∧ (∀ removeReaction e,
          CommentService.removeReaction removeReaction db cid e u = Err ACCESS_DENIED))
  ∧ (∀ cid,
     (∀ data nid,
        CommentService.createComment db data u nid ≠ Err INSUFFICIENT_PERMISSIONS)
     ∧ (∀ d, CommentService.updateComment db cid d u ≠ Err INSUFFICIENT_PERMISSIONS)
     ∧ (∀ softDelete,
          CommentService.deleteComment softDelete db cid u
          ≠ Err INSUFFICIENT_PERMISSIONS)
     ∧ (∀ addReaction e,
          CommentService.addReaction addReaction db cid e u
          ≠ Err INSUFFICIENT_PERMISSIONS)
     ∧ (∀ removeReaction e,
          CommentService.removeReaction removeReaction db cid e u
          ≠ Err INSUFFICIENT_PERMISSIONS))
  ∧ (∀ pid, projects db !! pid = None →
     (∀ d, ProjectService.updateProject db pid d u = Err PROJECT_NOT_FOUND)
     ∧ ProjectService.deleteProject db pid u = Err PROJECT_NOT_FOUND
     ∧ (∀ md now, ProjectService.addMember db pid md u now = Err PROJECT_NOT_FOUND)
     ∧ (∀ w, ProjectService.removeMember db pid w u = Err PROJECT_NOT_FOUND)
     ∧ (∀ w r, ProjectService.updateMemberRole db pid w r u = Err PROJECT_NOT_FOUND))
  ∧ (∀ pid p, projects db !! pid = Some p →
     Project.isMember p u = false →
     (∀ d, ProjectService.updateProject db pid d u = Err INSUFFICIENT_PERMISSIONS)
     ∧ ProjectService.deleteProject db pid u = Err INSUFFICIENT_PERMISSIONS
     ∧ (∀ md now, ProjectService.addMember db pid md u now = Err INSUFFICIENT_PERMISSIONS)
     ∧ (∀ w, ProjectService.removeMember db pid w u = Err INSUFFICIENT_PERMISSIONS)
     ∧ (∀ w r, ProjectService.updateMemberRole db pid w r u
               = Err INSUFFICIENT_PERMISSIONS))
  ∧ (∀ pid,
     (∀ d, ProjectService.updateProject db pid d u ≠ Err ACCESS_DENIED)
     ∧ ProjectService.deleteProject db pid u ≠ Err ACCESS_DENIED
     ∧ (∀ md now, ProjectService.addMember db pid md u now ≠ Err ACCESS_DENIED)
     ∧ (∀ w, ProjectService.removeMember db pid w u ≠ Err ACCESS_DENIED)
     ∧ (∀ w r, ProjectService.updateMemberRole db pid w r u ≠ Err ACCESS_DENIED)).
Proof.
  split_and!.
  - intros tid Ht.
    unfold TaskService.updateTask, TaskService.deleteTask,
      TaskService.updateTaskPosition.
    rewrite Ht. by split_and!.
  - intros tid t Ht Hnon%projectOfMember_denied.
    unfold TaskService.updateTask, TaskService.deleteTask,
      TaskService.updateTaskPosition.
    rewrite Ht. simpl. rewrite Hnon. by split_and!.
  - intros tid t p Ht Hp Hu. split_and!.
    + intros Hperm.
      unfold TaskService.updateTask, TaskService.deleteTask,
        TaskService.projectOfMember.
      rewrite Ht. simpl. rewrite Hp, Hu. simpl. rewrite Hperm. by split_and!.
    + intros Hroles. by apply stored_roles_manage_tasks.
    + intros d. unfold TaskService.updateTask, TaskService.projectOfMember.
      rewrite Ht. simpl. rewrite Hp, Hu. simpl. run_service.
    + unfold TaskService.deleteTask, TaskService.projectOfMember.
      rewrite Ht. simpl. rewrite Hp, Hu. simpl. run_service.
    + intros n. unfold TaskService.updateTaskPosition, TaskService.projectOfMember.
      rewrite Ht. simpl. rewrite Hp, Hu. simpl. run_service.
  - intros tid n. unfold TaskService.updateTaskPosition. run_service.
  - intros data nid Hp. unfold TaskService.createTask. by rewrite Hp.
  - intros data nid p Hp Hu. unfold TaskService.createTask.
    rewrite Hp. simpl. by rewrite Hu.
  - intros data nid. unfold TaskService.createTask. run_service.
  - intros data nid Ht. unfold CommentService.createComment. by rewrite Ht.
  - intros data nid t Ht Hnon%projectOfMember_denied.
    unfold CommentService.createComment. rewrite Ht. simpl. by rewrite Hnon.
  - intros cid Hc.
    unfold CommentService.updateComment, CommentService.deleteComment,
      CommentService.addReaction, CommentService.removeReaction.
    rewrite Hc. by split_and!.
  - intros cid c Hc.
    unfold CommentService.updateComment, CommentService.deleteComment.
    rewrite Hc. simpl. split.
    + intros Hne. rewrite bool_decide_eq_false_2 by done. by split.
    + intros Heq. rewrite bool_decide_eq_true_2 by done. simpl.
      split; intros; run_service.
  - intros cid c Hc Ht.
    unfold CommentService.addReaction, CommentService.removeReaction.
    rewrite Hc. simpl. rewrite Ht. by split.
  - intros cid c t Hc Ht Hnon%projectOfMember_denied.
    unfold CommentService.addReaction, CommentService.removeReaction.
    rewrite Hc. simpl. rewrite Ht. simpl. rewrite Hnon. by split.
  - intros cid.
    unfold CommentService.createComment, CommentService.updateComment,
      CommentService.deleteComment, CommentService.addReaction,
      CommentService.removeReaction.
    split_and!; intros; run_service.
  - intros pid Hp.
    unfold ProjectService.updateProject, ProjectService.deleteProject,
      ProjectService.addMember, ProjectService.removeMember,
      ProjectService.updateMemberRole.
    rewrite Hp. by split_and!.
  - intros pid p Hp Hu.
    assert (∀ c, Project.hasPermission p u c = false) as Hperm.
    { intros c. by apply (hasPermission_closed p u c). }
    unfold ProjectService.updateProject, ProjectService.deleteProject,
      ProjectService.addMember, ProjectService.removeMember,
      ProjectService.updateMemberRole.
    rewrite Hp. simpl. rewrite !Hperm. by split_and!.
  - intros pid.
    unfold ProjectService.updateProject, ProjectService.deleteProject,
      ProjectService.addMember, ProjectService.removeMember,
      ProjectService.updateMemberRole.
    split_and!; intros; run_service.
Qed.

End CheckOrder.

Lemma service_checks_in_order_witness :
  TaskService.deleteTask Sample.db Sample.T3 Sample.userZ = Err TASK_NOT_FOUND
  ∧ TaskService.deleteTask Sample.db Sample.T0 Sample.userZ = Err ACCESS_DENIED
  ∧ TaskService.updateTaskPosition Sample.db Sample.T0 7 Sample.userZ
    = Err ACCESS_DENIED
  ∧ TaskService.createTask Sample.db (Sample.taskData None) Sample.userZ Sample.T3
    = Err ACCESS_DENIED
  ∧ CommentService.createComment Sample.db Sample.commentData Sample.userZ Sample.K2
    = Err ACCESS_DENIED
  ∧ CommentService.addReaction (fun c _ _ => c) Sample.db Sample.K0 "+1" Sample.userZ
    = Err ACCESS_DENIED
  ∧ CommentService.deleteComment (fun c => c) Sample.db Sample.K0 Sample.userZ
    = Err ACCESS_DENIED
  ∧ CommentService.deleteComment (fun c => c) Sample.db Sample.K1 Sample.userZ
    ≠ Err ACCESS_DENIED
  ∧ ProjectService.deleteProject Sample.db Sample.projP Sample.userZ
    = Err INSUFFICIENT_PERMISSIONS.
Proof.
  pose proof (service_checks_in_order Sample.db Sample.userZ)
    as (Habsent & Hdenied & _ & _ & _ & Hcreate & _ & _ & Hcomment & _ & Hauthor
        & _ & Hreact & _ & _ & Hproject & _).
  assert (∀ p, projects Sample.db
                 !! Task.projectId (Sample.task Sample.projP "backlog" None 0 false)
               = Some p → Project.isMember p Sample.userZ = false) as Hnon.
  { intros p Hp. vm_compute in Hp. injection Hp as <-. reflexivity. }
  split_and!.
  - exact (proj1 (proj2 (Habsent Sample.T3 eq_refl))).
  - exact (proj1 (proj2 (Hdenied Sample.T0 _ eq_refl Hnon))).
  - exact (proj2 (proj2 (Hdenied Sample.T0 _ eq_refl Hnon)) 7).
  - exact (Hcreate (Sample.taskData None) Sample.T3 Sample.team eq_refl eq_refl).
  - exact (Hcomment Sample.commentData Sample.K2 _ eq_refl Hnon).
  - exact (proj1 (Hreact Sample.K0 _ _ eq_refl eq_refl Hnon) (fun c _ _ => c) "+1").
  - refine (proj2 (proj1 (Hauthor Sample.K0 _ eq_refl) _) (fun c => c)).
    by vm_compute.
  - exact (proj2 (proj2 (Hauthor Sample.K1 _ eq_refl) eq_refl) (fun c => c)).
  - exact (proj1 (proj2 (Hproject Sample.projP Sample.team eq_refl eq_refl))).
Defined.

(** ** Assignees *)

Section Assignees.

Import Task.

Lemma removeMember_Ok (db : Db) (pid w actor : ObjectId) (db' : Db) :
  ProjectService.removeMember db pid w actor = Ok db' →
  ∃ p, projects db !! pid = Some p
       ∧ Project.hasPermission p actor Project.canInvite = true
       ∧ projects db' = <[pid := Project.removeMember p w]> (projects db)
       ∧ tasks db' = tasks db.
Proof.
  unfold ProjectService.removeMember. intros Hrun.
  destruct (projects db !! pid) as [p|] eqn:Hp; [|done]. simpl in Hrun.
  destruct (Project.hasPermission p actor Project.canInvite) eqn:Hperm; [|done].
  simpl in Hrun. injection Hrun as <-. by exists p.
Qed.

Lemma removeMember_not_member (p : Project.IProject) (w : ObjectId) :
  Project.isMember (Project.removeMember p w) w = false.
Proof.
  apply not_true_iff_false. intros (m & Hin & Hm)%isMember_true_iff.
  unfold Project.removeMember in Hin. simpl in Hin.
  apply list_elem_of_filter in Hin as [Hne _]. by apply Hne.
Qed.

(** C9. [createTask], called by a member of an existing project with an
    assignee who is not a member of it, fails with [INVALID_ASSIGNEE].  The
    check is made there and nowhere else: [updateTask] and [removeMember]
    never answer [INVALID_ASSIGNEE], and a successful [removeMember] takes
    the user out of the member array while every task is stored as before,
    its assignee included. *)
Theorem assignee_checked_at_creation_only :
  (∀ (db : Db) (data : TaskService.CreateTaskData) (u nid a : ObjectId)
     (p : Project.IProject),
     projects db !! TaskService.c_projectId data = Some p →
     Project.isMember p u = true →
     TaskService.c_assigneeId data = Some a →
     Project.isMember p a = false →
     TaskService.createTask db data u nid = Err INVALID_ASSIGNEE)
  ∧ (∀ (db : Db) (pid w actor : ObjectId) (db' : Db),
     ProjectService.removeMember db pid w actor = Ok db' →
     (∃ p', projects db' !! pid = Some p' ∧ Project.isMember p' w = false)
     ∧ tasks db' = tasks db
     ∧ ∀ tid t, tasks db !! tid = Some t → assigneeId t = Some w →
                ∃ t', tasks db' !! tid = Some t' ∧ assigneeId t' = Some w)
  ∧ (∀ (db : Db) (tid : ObjectId) (d : TaskService.UpdateTaskData) (u : ObjectId),
     TaskService.updateTask db tid d u ≠ Err INVALID_ASSIGNEE)
  ∧ (∀ (db : Db) (pid w actor : ObjectId),
     ProjectService.removeMember db pid w actor ≠ Err INVALID_ASSIGNEE).
Proof.
  split_and!.
  - intros db data u nid a p Hp Hu Ha Hna. unfold TaskService.createTask.
    rewrite Hp. simpl. rewrite Hu. simpl. rewrite Ha, Hna. done.
  - intros db pid w actor db' (p & Hp & _ & Hps & Hts)%removeMember_Ok.
    split_and!; [|done|].
    + exists (Project.removeMember p w). rewrite Hps, lookup_insert_eq.
      split; [done|]. apply removeMember_not_member.
    + intros tid t Ht Ha. exists t. by rewrite Hts.
  - intros db tid d u. unfold TaskService.updateTask. run_service.
  - intros db pid w actor. unfold ProjectService.removeMember. run_service.
Qed.

Lemma assignee_checked_at_creation_only_witness :
  TaskService.createTask Sample.db (Sample.taskData (Some Sample.userW))
    Sample.userY Sample.T3 = Err INVALID_ASSIGNEE
  ∧ ∃ db',
      ProjectService.removeMember Sample.db Sample.projP Sample.userY Sample.userX
      = Ok db'
      ∧ (∃ p', projects db' !! Sample.projP = Some p'
               ∧ Project.isMember p' Sample.userY = false)
      ∧ ∃ t', tasks db' !! Sample.T1 = Some t' ∧ assigneeId t' = Some Sample.userY.
Proof.
  destruct assignee_checked_at_creation_only as (Hcreate & Hremove & _).
  split.
  - exact (Hcreate Sample.db (Sample.taskData (Some Sample.userW)) Sample.userY
             Sample.T3 Sample.userW Sample.team eq_refl eq_refl eq_refl eq_refl).
  - eexists. split; [vm_compute; reflexivity|].
    edestruct (Hremove Sample.db Sample.projP Sample.userY Sample.userX)
      as (Hgone & _ & Hkept); [vm_compute; reflexivity|].
    split; [exact Hgone|].
    exact (Hkept Sample.T1 (Sample.task Sample.projP "in-progress"
                              (Some Sample.userY) 1 false) eq_refl eq_refl).
Defined.

End Assignees.

(** ** Project creation *)

Section Creation.

Import Project ProjectService.

Lemma createProject_rejected (db : Db) (data : CreateProjectData)
  (owner nid : ObjectId) :
  createProject db data owner nid = Err VALIDATION_ERROR.
Proof. done. Qed.

(** What [isMember] finds on a populated project: no member when a user
    stands behind every entry, and an error otherwise. *)
Lemma isMemberPopulated_spec (db : Db) (p : IProject) (u : ObjectId) :
  isMemberPopulated db p u
  = if forallb (fun m => bool_decide (userId m ∈ users db)) (members p)
    then Ok false else Err TYPE_ERROR.
Proof.
  unfold isMemberPopulated, populatedUser.
  induction (members p) as [|m ms IH]; [done|]. simpl.
  destruct (bool_decide (userId m ∈ users db)); done.
Qed.

Lemma getProjectById_spec (db : Db) (pid u : ObjectId) :
  getProjectById db pid u
  = match projects db !! pid with
    | Some p =>
        if forallb (fun m => bool_decide (userId m ∈ users db)) (members p)
        then Err ACCESS_DENIED else Err TYPE_ERROR
    | None => Err PROJECT_NOT_FOUND
    end.
Proof.
  unfold getProjectById. destruct (projects db !! pid) as [p|]; [|done].
  simpl. rewrite isMemberPopulated_spec.
  by destruct (forallb _ (members p)).
Qed.

(** C10. [createProject] builds a project that refers to its creator as
    [ownerId] and has an empty member array, and saves it.  The project
    schema requires [key], which the payload of [createProject] has no
    field for: [save()] rejects the document, so every call ends in a
    validation error and no project is stored.  What the claim draws from
    the empty member array does hold of the code: [isMember] is false for
    the owner on the document built, and for every stored project with an
    empty member array [isMember] is false for the owner and
    [getProjectById] answers the owner with [ACCESS_DENIED]. *)
Theorem createProject_stores_no_project :
  (∀ (db : Db) (data : CreateProjectData) (owner nid : ObjectId),
     createProject db data owner nid = Err VALIDATION_ERROR)
  ∧ (∀ (data : CreateProjectData) (owner : ObjectId),
     r_key (requiredPaths data owner) = None
     ∧ ownerId (newProject data owner) = owner
     ∧ members (newProject data owner) = []
     ∧ isMember (newProject data owner) owner = false)
  ∧ (∀ (db : Db) (pid : ObjectId) (p : IProject),
     projects db !! pid = Some p →
     members p = [] →
     isMember p (ownerId p) = false
     ∧ getProjectById db pid (ownerId p) = Err ACCESS_DENIED)
  ∧ createProject Sample.db Sample.projectData Sample.userX Sample.projR
    = Err VALIDATION_ERROR
  ∧ projects SampleQueries.dbWithFresh !! Sample.projR = Some Sample.fresh
  ∧ ownerId Sample.fresh = Sample.userX
  ∧ getProjectById SampleQueries.dbWithFresh Sample.projR Sample.userX
    = Err ACCESS_DENIED.
Proof.
  split_and!; try reflexivity.
  - done.
  - intros db pid p Hp Hms. split.
    + unfold isMember. by rewrite Hms.
    + rewrite getProjectById_spec, Hp, Hms. done.
Qed.

End Creation.

(** ** More on the member array *)

Section MemberArray.

Import Project.

Implicit Types (p : IProject) (u v : ObjectId) (m : IProjectMember) (r : string).

Lemma getMemberRole_find p u :
  getMemberRole p u = role <$> (snd <$> list_find (sameUser u) (members p)).
Proof.
  unfold getMemberRole. by destruct (list_find _ _) as [[i m]|].
Qed.

Lemma find_filter_other (l : list IProjectMember) u v :
  v ≠ u →
  snd <$> list_find (sameUser v) (filter (fun m => ¬ sameUser u m) l)
  = snd <$> list_find (sameUser v) l.
Proof.
  intros Hne. induction l as [|x l IH]; [done|].
  destruct (decide (sameUser u x)) as [Hu|Hu].
  - rewrite filter_cons_False by (intros Hn; by apply Hn).
    rewrite IH. simpl. rewrite decide_False.
    + by destruct (list_find (sameUser v) l) as [[i m]|].
    + unfold sameUser in *. congruence.
  - rewrite filter_cons_True by done. simpl.
    destruct (decide (sameUser v x)); [done|].
    rewrite <- !option_fmap_compose.
    transitivity (snd <$> list_find (sameUser v)
                            (filter (fun m => ¬ sameUser u m) l)).
    + by destruct (list_find _ (filter _ l)) as [[i m]|].
    + rewrite IH. by destruct (list_find _ l) as [[i m]|].
Qed.

Lemma find_insert_other (l : list IProjectMember) (i : nat) m m' v :
  l !! i = Some m → ¬ sameUser v m → ¬ sameUser v m' →
  snd <$> list_find (sameUser v) (<[i := m']> l)
  = snd <$> list_find (sameUser v) l.
Proof.
  revert i. induction l as [|x l IH]; intros i Hi Hm Hm'; [done|].
  destruct i as [|i]; simpl in *.
  - injection Hi as ->. by rewrite !decide_False by done.
  - destruct (decide (sameUser v x)); [done|].
    specialize (IH i Hi Hm Hm').
    destruct (list_find _ (<[i:=m']> l)) as [[j y]|],
             (list_find _ l) as [[j' y']|]; simpl in *; congruence.
Qed.

Lemma find_app_other (l : list IProjectMember) m v :
  ¬ sameUser v m →
  snd <$> list_find (sameUser v) (l ++ [m]) = snd <$> list_find (sameUser v) l.
Proof.
  intros Hm. induction l as [|x l IH]; simpl.
  - by rewrite decide_False.
  - destruct (decide (sameUser v x)); [done|].
    destruct (list_find _ (l ++ [m])) as [[j y]|],
             (list_find _ l) as [[j' y']|]; simpl in *; congruence.
Qed.

(** X1. [removeMember] takes the user out, the owner like anyone else, and
    leaves every other user as they were: same membership, same role. *)
Theorem removeMember_frame p u :
  isMember (removeMember p u) u = false
  ∧ getMemberRole (removeMember p u) u = None
  ∧ ownerId (removeMember p u) = ownerId p
  ∧ ∀ v, v ≠ u →
      isMember (removeMember p u) v = isMember p v
      ∧ getMemberRole (removeMember p u) v = getMemberRole p v.
Proof.
  split_and!.
  - apply removeMember_not_member.
  - apply getMemberRole_None_iff, removeMember_not_member.
  - done.
  - intros v Hne. split.
    + apply eq_true_iff_eq. rewrite !isMember_true_iff. simpl. split.
      * intros (m & [_ Hin]%list_elem_of_filter & Hm). by exists m.
      * intros (m & Hin & Hm). exists m. split; [|done].
        apply list_elem_of_filter. split; [|done].
        unfold sameUser. congruence.
    + rewrite !getMemberRole_find. simpl. by rewrite find_filter_other.
Qed.

(** X2. After [addMember] the user's role is the one given, and every other
    user has the membership and the role they had. *)
Theorem addMember_sets_role_only p u r (now : Date) :
  isMember (addMember p u r now) u = true
  ∧ getMemberRole (addMember p u r now) u = Some r
  ∧ ownerId (addMember p u r now) = ownerId p
  ∧ ∀ v, v ≠ u →
      isMember (addMember p u r now) v = isMember p v
      ∧ getMemberRole (addMember p u r now) v = getMemberRole p v.
Proof.
  split_and!.
  - apply addMember_isMember.
  - destruct (addMember_find p u r now) as (i & m & Hf & Hr).
    unfold getMemberRole. by rewrite Hf, Hr.
  - unfold addMember. by destruct (list_find _ _) as [[i m]|].
  - intros v Hne. split.
    + rewrite !isMember_ids, addMember_ids.
      destruct (isMember p u); [done|].
      apply bool_decide_ext. rewrite elem_of_app, list_elem_of_singleton.
      split; [intros [?|?]; [done|congruence]|by left].
    + rewrite !getMemberRole_find. f_equal. unfold addMember.
      destruct (list_find (sameUser u) (members p)) as [[i m]|] eqn:Hf; simpl.
      * apply list_find_Some in Hf as (Hi & Hu & _). unfold sameUser in Hu.
        eapply find_insert_other; [done|..]; unfold sameUser; simpl; congruence.
      * apply find_app_other. unfold sameUser. simpl. congruence.
Qed.

End MemberArray.

Section MemberArrayMore.

Import Project.

Implicit Types (p : IProject) (u v : ObjectId) (m : IProjectMember) (r : string).

Lemma setMembers_id p : setMembers p (members p) = p.
Proof. by destruct p. Qed.

Lemma filter_all {A : Type} (P : A → Prop) `{∀ x, Decision (P x)} (l : list A) :
  Forall P l → filter P l = l.
Proof.
  induction 1 as [|x l Hx _ IH]; [done|].
  by rewrite filter_cons_True, IH.
Qed.

Lemma filter_none {A : Type} (P : A → Prop) `{∀ x, Decision (P x)} (l : list A) :
  Forall (fun x => ¬ P x) l → filter P l = [].
Proof.
  induction 1 as [|x l Hx _ IH]; [done|].
  by rewrite filter_cons_False.
Qed.

Lemma removeMember_absent p u :
  isMember p u = false → removeMember p u = p.
Proof.
  intros Hm%isMember_false_find%list_find_None. unfold removeMember.
  rewrite filter_all by done. apply setMembers_id.
Qed.

Lemma removeMember_NoDup p u :
  NoDup (userId <$> members p) → NoDup (userId <$> members (removeMember p u)).
Proof.
  intros Hnd. apply (sublist_NoDup _ (userId <$> members p)); [done|].
  simpl. apply fmap_sublist, sublist_filter.
Qed.

(** X3. [removeMember] on a user without an entry gives the project back as
    it is, and removing a user twice is the same as removing once. *)
Theorem removeMember_absent_noop p u :
  removeMember (removeMember p u) u = removeMember p u
  ∧ (isMember p u = false → removeMember p u = p).
Proof.
  split; [|apply removeMember_absent].
  apply removeMember_absent, removeMember_not_member.
Qed.

Lemma removeMember_absent_noop_witness :
  removeMember Sample.team Sample.userZ = Sample.team.
Proof.
  exact (proj2 (removeMember_absent_noop Sample.team Sample.userZ) eq_refl).
Defined.

(** X4. Adding a user who had no entry and removing them again gives the
    project back as it was. *)
Theorem addMember_removeMember_roundtrip p u r (now : Date) :
  isMember p u = false →
  removeMember (addMember p u r now) u = p.
Proof.
  intros Hm. pose proof Hm as Hf%isMember_false_find.
  unfold addMember. rewrite Hf. unfold removeMember. simpl.
  rewrite filter_app, filter_cons_False, filter_nil, app_nil_r
    by (intros Hn; by apply Hn).
  apply list_find_None in Hf. rewrite filter_all by done.
  by destruct p.
Qed.

Lemma addMember_removeMember_roundtrip_witness :
  removeMember (addMember Sample.team Sample.userW "admin" 1700000300000)
    Sample.userW = Sample.team.
Proof.
  exact (addMember_removeMember_roundtrip Sample.team Sample.userW "admin"
           1700000300000 eq_refl).
Defined.

(** X5. [memberCount] grows by one when [addMember] is given a user without
    an entry and stays the same otherwise; [removeMember] never makes it
    grow, and in an array with at most one entry per user it takes off
    exactly the entry of a user who has one. *)
Theorem memberCount_after_updates p u r (now : Date) :
  memberCount (addMember p u r now)
  = (if isMember p u then memberCount p else S (memberCount p))
  ∧ (memberCount (removeMember p u) ≤ memberCount p)%nat
  ∧ (NoDup (userId <$> members p) →
     memberCount p
     = (if isMember p u then S (memberCount (removeMember p u))
        else memberCount (removeMember p u))).
Proof.
  unfold memberCount. split_and!.
  - rewrite <- !(length_fmap userId), addMember_ids.
    destruct (isMember p u); [done|]. rewrite length_app. simpl. lia.
  - apply length_filter.
  - intros Hnd. destruct (isMember p u) eqn:Hm.
    + apply isMember_true_iff in Hm as (m & [i Hi]%list_elem_of_lookup & <-).
      pose proof (filter_app_complement (sameUser (userId m)) (members p)) as Hperm.
      apply Permutation_length in Hperm.
      rewrite length_app, (filter_unique_id _ i m Hnd Hi) in Hperm.
      simpl in *. lia.
    + by rewrite removeMember_absent.
Qed.

Lemma memberCount_after_updates_witness :
  memberCount Sample.team = S (memberCount (removeMember Sample.team Sample.userY)).
Proof.
  refine (proj2 (proj2 (memberCount_after_updates Sample.team Sample.userY
                          "member" 0)) _).
  apply (bool_decide_unpack _). vm_compute. exact I.
Defined.

(** X6. [canManage] is granted to the owner, entry or no entry, and
    otherwise exactly to a user whose entry carries the role [owner] or
    [admin]; taking the owner out of the member array does not take it
    away. *)
Theorem canManage_owner_or_role p u :
  (canManage p u = true ↔
     ownerId p = u
     ∨ getMemberRole p u = Some "owner"
     ∨ getMemberRole p u = Some "admin")
  ∧ canManage (removeMember p (ownerId p)) (ownerId p) = true
  ∧ isMember (removeMember p (ownerId p)) (ownerId p) = false.
Proof.
  split_and!.
  - unfold canManage, getMemberRole. case_bool_decide as Ho.
    + split; [by left|done].
    + destruct (list_find _ _) as [[i m]|].
      * rewrite bool_decide_eq_true, elem_of_cons, list_elem_of_singleton.
        split.
        -- intros [->| ->]; right; [by left|by right].
        -- intros [?|[[= ->]|[= ->]]]; [done|by left|by right].
      * split; [done|]. by intros [?|[?|?]].
  - unfold canManage. simpl. by rewrite bool_decide_eq_true_2.
  - apply removeMember_not_member.
Qed.

(** X7. Starting from a project as [createProject] builds it, no sequence of
    [addMember] and [removeMember] calls leaves a user with two entries. *)
Theorem member_ops_keep_one_entry_per_user
  (data : ProjectService.CreateProjectData) (owner : ObjectId)
  (ops : list MemberOp) (u : ObjectId) :
  NoDup (userId <$> members (applyMemberOps (ProjectService.newProject data owner) ops))
  ∧ (length (filter (sameUser u)
       (members (applyMemberOps (ProjectService.newProject data owner) ops)))
     ≤ 1)%nat.
Proof.
  assert (∀ p, NoDup (userId <$> members p) →
               NoDup (userId <$> members (applyMemberOps p ops))) as Hinv.
  { unfold applyMemberOps. induction ops as [|op ops IH]; intros p Hnd; [done|].
    simpl. apply IH. destruct op as [v r now|v]; simpl.
    - by apply addMember_NoDup.
    - by apply removeMember_NoDup. }
  specialize (Hinv (ProjectService.newProject data owner) NoDup_nil_2).
  split; [done|].
  set (q := applyMemberOps _ _) in *.
  destruct (isMember q u) eqn:Hm.
  - apply isMember_true_iff in Hm as (m & [i Hi]%list_elem_of_lookup & <-).
    by rewrite (filter_unique_id _ i m Hinv Hi).
  - apply isMember_false_find, list_find_None in Hm.
    rewrite filter_none by done. simpl. lia.
Qed.

End MemberArrayMore.

(** ** Watchers *)

Section Watchers.

Import TaskModel.

Implicit Types (t : ITask) (u v : ObjectId) (w : ITaskWatcher).

Lemma isWatchedBy_true_iff t u :
  isWatchedBy t u = true ↔ ∃ w, w ∈ watchers t ∧ userId w = u.
Proof.
  unfold isWatchedBy. rewrite existsb_exists. split.
  - intros (w & Hin & Hw). exists w. split; [by apply list_elem_of_In|].
    by apply bool_decide_eq_true in Hw.
  - intros (w & Hin & Hw). exists w. split; [by apply list_elem_of_In|].
    by apply bool_decide_eq_true.
Qed.

Lemma isWatchedBy_ids t u :
  isWatchedBy t u = bool_decide (u ∈ userId <$> watchers t).
Proof.
  apply eq_true_iff_eq. rewrite isWatchedBy_true_iff, bool_decide_eq_true.
  rewrite list_elem_of_fmap. split.
  - intros (w & Hin & Hw). by exists w.
  - intros (w & Hw & Hin). by exists w.
Qed.

Lemma addWatcher_ids t u by_ (now : Date) :
  userId <$> watchers (addWatcher t u by_ now)
  = if isWatchedBy t u then userId <$> watchers t
    else ((userId <$> watchers t) ++ [u])%list.
Proof.
  unfold addWatcher. destruct (isWatchedBy t u); simpl; [done|].
  by rewrite fmap_app.
Qed.

(** X8. [addWatcher] records a user once: a user who already watches is left
    with the entry they have (who added them and when are not rewritten), so
    a second call changes nothing; after the call the user watches, and who
    else watches is unchanged; no user ends up with two entries. *)
Theorem addWatcher_records_once t u (by1 by2 : ObjectId) (now1 now2 : Date) :
  isWatchedBy (addWatcher t u by1 now1) u = true
  ∧ addWatcher (addWatcher t u by1 now1) u by2 now2 = addWatcher t u by1 now1
  ∧ (isWatchedBy t u = true → addWatcher t u by1 now1 = t)
  ∧ (isWatchedBy t u = false →
     watchers (addWatcher t u by1 now1)
     = (watchers t ++ [mkWatcher u now1 by1])%list)
  ∧ (∀ v, v ≠ u → isWatchedBy (addWatcher t u by1 now1) v = isWatchedBy t v)
  ∧ (NoDup (userId <$> watchers t) →
     NoDup (userId <$> watchers (addWatcher t u by1 now1))).
Proof.
  assert (isWatchedBy (addWatcher t u by1 now1) u = true) as Hafter.
  { rewrite isWatchedBy_ids, addWatcher_ids. apply bool_decide_eq_true.
    destruct (isWatchedBy t u) eqn:Hw.
    - rewrite isWatchedBy_ids in Hw. by apply bool_decide_eq_true in Hw.
    - apply elem_of_app. right. by apply list_elem_of_singleton. }
  split_and!; [done|..].
  - unfold addWatcher at 1. by rewrite Hafter.
  - intros Hw. unfold addWatcher. by rewrite Hw.
  - intros Hw. unfold addWatcher. by rewrite Hw.
  - intros v Hne. rewrite !isWatchedBy_ids, addWatcher_ids.
    destruct (isWatchedBy t u); [done|].
    apply bool_decide_ext. rewrite elem_of_app, list_elem_of_singleton.
    split; [intros [?|?]; [done|congruence]|by left].
  - intros Hnd. rewrite addWatcher_ids. destruct (isWatchedBy t u) eqn:Hw; [done|].
    apply NoDup_app. split_and!; [done| |apply NoDup_singleton].
    intros x Hx ->%list_elem_of_singleton.
    rewrite isWatchedBy_ids in Hw. by apply bool_decide_eq_false in Hw.
Qed.

Lemma addWatcher_records_once_witness :
  addWatcher SampleQueries.watched Sample.userX Sample.userY 1700000900000
  = SampleQueries.watched
  ∧ watchers (addWatcher SampleQueries.watched Sample.userY Sample.userX
                1700000900000)
    = [mkWatcher Sample.userX 1700000000000 Sample.userX;
       mkWatcher Sample.userY 1700000900000 Sample.userX].
Proof.
  split.
  - exact (proj1 (proj2 (proj2
             (addWatcher_records_once SampleQueries.watched Sample.userX
                Sample.userY Sample.userY 1700000900000 0))) eq_refl).
  - exact (proj1 (proj2 (proj2 (proj2
             (addWatcher_records_once SampleQueries.watched Sample.userY
                Sample.userX Sample.userX 1700000900000 0)))) eq_refl).
Defined.

(** X9. After [removeWatcher] the user does not watch, whoever else watched
    still does, the count has not grown, and undoing an [addWatcher] of a
    user who did not watch gives the task back as it was. *)
Theorem removeWatcher_undoes_addWatcher t u (by_ : ObjectId) (now : Date) :
  isWatchedBy (removeWatcher t u) u = false
  ∧ (∀ v, v ≠ u → isWatchedBy (removeWatcher t u) v = isWatchedBy t v)
  ∧ (watcherCount (removeWatcher t u) ≤ watcherCount t)%nat
  ∧ (isWatchedBy t u = false →
     removeWatcher t u = t
     ∧ removeWatcher (addWatcher t u by_ now) u = t).
Proof.
  split_and!.
  - apply not_true_iff_false. intros (w & Hin & Hw)%isWatchedBy_true_iff.
    simpl in Hin. by apply list_elem_of_filter in Hin as [Hne _].
  - intros v Hne. apply eq_true_iff_eq. rewrite !isWatchedBy_true_iff. simpl.
    split.
    + intros (w & [_ Hin]%list_elem_of_filter & Hw). by exists w.
    + intros (w & Hin & Hw). exists w. split; [|done].
      apply list_elem_of_filter. split; [congruence|done].
  - apply length_filter.
  - intros Hw.
    assert (Forall (fun w => userId w ≠ u) (watchers t)) as Hall.
    { apply Forall_forall. intros w Hin Hu.
      apply not_true_iff_false in Hw. apply Hw, isWatchedBy_true_iff.
      by exists w. }
    split.
    + unfold removeWatcher. rewrite filter_all by done. by destruct t.
    + unfold addWatcher. rewrite Hw. simpl. unfold removeWatcher. simpl.
      rewrite filter_app, filter_cons_False, filter_nil, app_nil_r
        by (intros Hn; by apply Hn).
      rewrite filter_all by done. by destruct t.
Qed.

Lemma removeWatcher_undoes_addWatcher_witness :
  removeWatcher
    (addWatcher SampleQueries.watched Sample.userY Sample.userX 1700000900000)
    Sample.userY
  = SampleQueries.watched.
Proof.
  exact (proj2 (proj2 (proj2 (proj2
           (removeWatcher_undoes_addWatcher SampleQueries.watched Sample.userY
              Sample.userX 1700000900000))) eq_refl)).
Defined.

End Watchers.

(** ** Reading tasks *)

Section TaskReads.

Import Task TaskService.

Lemma populate_createdById (requested : list string) :
  "createdById" ∈ requested →
  populate Task.paths requested = Err STRICT_POPULATE_ERROR.
Proof.
  intros Hin. unfold populate, throwIf.
  destruct (forallb _ requested) eqn:Hall; [|done].
  rewrite forallb_forall in Hall.
  specialize (Hall "createdById" (proj1 (list_elem_of_In _ _) Hin)).
  by vm_compute in Hall.
Qed.

(** X13. [getTaskById] never returns a task.  Its query populates
    [createdById], which the task schema does not have, and throws for
    every task that it finds, before the access check is reached: the
    members of the task's project get the same error as everybody else,
    and a user who is not a member is not answered [ACCESS_DENIED].  Only
    an id that no task has is answered [TASK_NOT_FOUND]. *)
Theorem getTaskById_returns_no_task (db : Db) (tid u : ObjectId) :
  (tasks db !! tid = None → getTaskById db tid u = Err TASK_NOT_FOUND)
  ∧ (is_Some (tasks db !! tid) → getTaskById db tid u = Err STRICT_POPULATE_ERROR)
  ∧ (∀ r, getTaskById db tid u ≠ Ok r)
  ∧ getTaskById db tid u ≠ Err ACCESS_DENIED
  ∧ ("createdById" ∉ Task.paths).
Proof.
  assert (is_Some (tasks db !! tid) → getTaskById db tid u = Err STRICT_POPULATE_ERROR)
    as Hfound.
  { intros [t Ht]. unfold getTaskById, findOnePopulated. rewrite Ht.
    cbv beta iota. rewrite populate_createdById; [done|]. set_solver. }
  assert (tasks db !! tid = None → getTaskById db tid u = Err TASK_NOT_FOUND)
    as Habsent.
  { intros Ht. unfold getTaskById. by rewrite Ht. }
  split_and!; [done|done|..].
  - intros r. destruct (tasks db !! tid) eqn:Ht.
    + by rewrite Hfound.
    + by rewrite Habsent.
  - destruct (tasks db !! tid) eqn:Ht.
    + by rewrite Hfound.
    + by rewrite Habsent.
  - apply (bool_decide_unpack _). by vm_compute.
Qed.

(** X19. [getProjectTasks] answers [ACCESS_DENIED] when the project does
    not exist or the user is not a member of it.  A member gets the empty
    list when the project has no unarchived task of the status asked for,
    and an error otherwise: the query populates [createdById] and throws
    as soon as one task matches, so no task is ever listed. *)
Theorem getProjectTasks_lists_no_task (createdAt : ObjectId → Date) (db : Db)
  (pid u : ObjectId) (status : option string) :
  ((∀ p, projects db !! pid = Some p → Project.isMember p u = false) →
     getProjectTasks createdAt db pid u status = Err ACCESS_DENIED)
  ∧ (∀ p, projects db !! pid = Some p → Project.isMember p u = true →
     ((∀ tid t, tasks db !! tid = Some t →
                matchesProjectQuery pid status t = false) →
      getProjectTasks createdAt db pid u status = Ok [])
     ∧ (∀ tid t, tasks db !! tid = Some t →
                 matchesProjectQuery pid status t = true →
                 getProjectTasks createdAt db pid u status = Err STRICT_POPULATE_ERROR))
  ∧ (∀ l, getProjectTasks createdAt db pid u status = Ok l → l = [])
  ∧ (∀ t, matchesProjectQuery pid None t = true
          ↔ projectId t = pid ∧ isArchived t = false).
Proof.
  assert (∀ p, projects db !! pid = Some p → Project.isMember p u = true →
          getProjectTasks createdAt db pid u status
          = match filter (fun it => matchesProjectQuery pid status (snd it) = true)
                    (map_to_list (tasks db)) with
            | [] => Ok []
            | _ :: _ => Err STRICT_POPULATE_ERROR
            end) as Hrun.
  { intros p Hp Hu. unfold getProjectTasks, projectOfMember, findPopulated.
    rewrite Hp, Hu. simpl.
    destruct (filter _ (map_to_list (tasks db))); reflexivity. }
  split_and!.
  - intros Hnon. unfold getProjectTasks.
    by rewrite (projectOfMember_denied db pid u Hnon).
  - intros p Hp Hu. rewrite (Hrun p Hp Hu). split.
    + intros Hnone.
      destruct (filter _ (map_to_list (tasks db))) as [|[tid t] l] eqn:Hf; [done|].
      assert ((tid, t) ∈ (tid, t) :: l) as Hin by left.
      rewrite <- Hf in Hin.
      apply list_elem_of_filter in Hin as [Hq Hin%elem_of_map_to_list].
      simpl in Hq. by rewrite (Hnone tid t Hin) in Hq.
    + intros tid t Ht Hq.
      destruct (filter _ (map_to_list (tasks db))) as [|x l] eqn:Hf; [|done].
      assert ((tid, t) ∈ filter (fun it => matchesProjectQuery pid status (snd it) = true)
                           (map_to_list (tasks db))) as Hin.
      { apply list_elem_of_filter. split; [done|]. by apply elem_of_map_to_list. }
      rewrite Hf in Hin. by apply not_elem_of_nil in Hin.
  - intros l Hl. unfold getProjectTasks in Hl.
    destruct (projectOfMember db pid u) as [p|e] eqn:Hpm; [|done].
    assert (∃ p', projects db !! pid = Some p' ∧ Project.isMember p' u = true)
      as (p' & Hp & Hu).
    { unfold projectOfMember in Hpm.
      destruct (projects db !! pid) as [p'|]; [|done].
      destruct (Project.isMember p' u) eqn:Hu; [|done]. by exists p'. }
    fold (getProjectTasks createdAt db pid u status) in Hrun.
    specialize (Hrun p' Hp Hu).
    unfold getProjectTasks in Hrun. rewrite Hpm in Hrun. rewrite Hrun in Hl.
    destruct (filter _ (map_to_list (tasks db))); [|done].
    by injection Hl as <-.
  - intros t. unfold matchesProjectQuery. simpl.
    rewrite andb_true_r, andb_true_iff, bool_decide_eq_true, negb_true_iff. done.
Qed.

End TaskReads.

Lemma getProjectTasks_lists_no_task_witness :
  TaskService.getProjectTasks SampleQueries.createdAt Sample.db Sample.projP
    Sample.userZ None = Err ACCESS_DENIED
  ∧ TaskService.getProjectTasks SampleQueries.createdAt Sample.db Sample.projP
      Sample.userY (Some "review") = Ok []
  ∧ TaskService.getProjectTasks SampleQueries.createdAt Sample.db Sample.projP
      Sample.userY None = Err STRICT_POPULATE_ERROR.
Proof.
  split_and!.
  - apply (proj1 (getProjectTasks_lists_no_task SampleQueries.createdAt Sample.db
                    Sample.projP Sample.userZ None)).
    intros p Hp. vm_compute in Hp. injection Hp as <-. reflexivity.
  - reflexivity.
  - exact (proj2 (proj1 (proj2 (getProjectTasks_lists_no_task SampleQueries.createdAt
                                  Sample.db Sample.projP Sample.userY None))
                    Sample.team eq_refl eq_refl)
             Sample.T0 _ eq_refl eq_refl).
Defined.

(** ** Removing tasks *)

Section TaskRemoval.

Import Task TaskService.

(** X16. A successful [deleteTask] takes the task out of the store and
    nothing else: every other task and every project is stored as before,
    and the task is from then on not found, by [getTaskById] as by a second
    [deleteTask], whoever asks. *)
Theorem deleteTask_removes_task (db : Db) (tid u : ObjectId) (db' : Db) :
  deleteTask db tid u = Ok db' →
  is_Some (tasks db !! tid)
  ∧ tasks db' !! tid = None
  ∧ (∀ other, other ≠ tid → tasks db' !! other = tasks db !! other)
  ∧ projects db' = projects db
  ∧ (∀ v, getTaskById db' tid v = Err TASK_NOT_FOUND)
  ∧ (∀ v, deleteTask db' tid v = Err TASK_NOT_FOUND).
Proof.
  unfold deleteTask. intros Hrun.
  destruct (tasks db !! tid) as [t|] eqn:Ht; [|done]. simpl in Hrun.
  destruct (projectOfMember db (projectId t) u) as [project|e]; [|done].
  simpl in Hrun.
  destruct (Project.hasPermission project u Project.canManageTasks); [|done].
  simpl in Hrun. injection Hrun as <-. simpl.
  split_and!; [done|apply lookup_delete_eq| |done|..].
  - intros other Hne. by apply lookup_delete_ne.
  - intros v. unfold getTaskById. simpl. by rewrite lookup_delete_eq.
  - intros v. unfold deleteTask. simpl. by rewrite lookup_delete_eq.
Qed.

Lemma deleteTask_removes_task_witness :
  ∃ db',
    deleteTask Sample.db Sample.T1 Sample.userY = Ok db'
    ∧ getTaskById db' Sample.T1 Sample.userY = Err TASK_NOT_FOUND
    ∧ tasks db' !! Sample.T0 = tasks Sample.db !! Sample.T0.
Proof.
  eexists. split; [reflexivity|].
  edestruct (deleteTask_removes_task Sample.db Sample.T1 Sample.userY)
    as (_ & _ & Hframe & _ & Hget & _); [reflexivity|].
  split; [apply Hget|]. apply Hframe. by vm_compute.
Defined.

End TaskRemoval.

(** ** Paged results *)

Section Paging.

Context {A : Type}.

Implicit Types (l : list A) (limit page : positive).

Lemma pageCount_bounds (n : nat) limit :
  (n ≤ pageCount n limit * Pos.to_nat limit)%nat
  ∧ (0 < n → (pageCount n limit - 1) * Pos.to_nat limit < n)%nat.
Proof.
  unfold pageCount. pose proof (Pos2Nat.is_pos limit) as Hpos.
  set (L := Pos.to_nat limit) in *.
  assert (L ≠ 0)%nat as HL by lia.
  pose proof (Nat.Div0.mul_div_le (n + L - 1) L) as Hlo.
  pose proof (Nat.mul_succ_div_gt (n + L - 1) L HL) as Hhi.
  set (q := ((n + L - 1) / L)%nat) in *.
  split; [nia|]. intros Hn. destruct q as [|q]; [nia|]. simpl. nia.
Qed.

Lemma pageCount_0 limit : pageCount 0 limit = 0%nat.
Proof.
  unfold pageCount. pose proof (Pos2Nat.is_pos limit). simpl.
  apply Nat.div_small. lia.
Qed.

Lemma paginate_take l limit (n : nat) :
  concat ((fun k => paginate (Pos.of_nat k) limit l) <$> seq 1 n)
  = take (n * Pos.to_nat limit) l.
Proof.
  induction n as [|n IH]; [done|].
  rewrite seq_S, fmap_app, concat_app, IH. simpl. rewrite app_nil_r.
  unfold paginate, skipOf. rewrite Nat2Pos.id by done.
  replace (S n - 1)%nat with n by lia.
  rewrite take_take_drop. f_equal. lia.
Qed.

Lemma paginate_lookup l limit (i : nat) (x : A) :
  l !! i = Some x →
  x ∈ paginate (Pos.of_nat (S (i / Pos.to_nat limit))) limit l
  ∧ (S (i / Pos.to_nat limit) ≤ pageCount (length l) limit)%nat.
Proof.
  intros Hi. pose proof (Pos2Nat.is_pos limit) as Hpos.
  set (L := Pos.to_nat limit) in *.
  assert (L ≠ 0)%nat as HL by lia.
  pose proof (Nat.div_mod i L HL) as Hdm.
  pose proof (Nat.mod_upper_bound i L HL) as Hmod.
  split.
  - unfold paginate, skipOf. rewrite Nat2Pos.id by done. fold L.
    replace (S (i / L) - 1)%nat with (i / L)%nat by lia.
    apply list_elem_of_lookup. exists (i mod L)%nat.
    rewrite lookup_take_lt by done. rewrite lookup_drop.
    replace (i / L * L + i mod L)%nat with i by lia. done.
  - apply lookup_lt_Some in Hi.
    destruct (pageCount_bounds (length l) limit) as [Hcover _]. fold L in Hcover.
    assert (i / L < pageCount (length l) limit)%nat; [|lia].
    apply Nat.Div0.div_lt_upper_bound. lia.
Qed.

(** X18. The pages of a listing cut the sorted result into consecutive
    pieces of at most [limit] elements: the pages from 1 to
    [Math.ceil(total / limit)], put one after the other, are the whole
    result, each of them holds something, every later page is empty, and
    the page count is the least that covers the total. *)
Theorem pages_partition_the_result l limit :
  concat ((fun k => paginate (Pos.of_nat k) limit l)
            <$> seq 1 (pageCount (length l) limit)) = l
  ∧ (∀ page, length (paginate page limit l) ≤ Pos.to_nat limit)%nat
  ∧ (∀ page, (pageCount (length l) limit < Pos.to_nat page)%nat →
             paginate page limit l = [])
  ∧ (∀ page, (Pos.to_nat page ≤ pageCount (length l) limit)%nat →
             paginate page limit l ≠ [])
  ∧ (length l ≤ pageCount (length l) limit * Pos.to_nat limit)%nat
  ∧ (pageCount (length l) limit = 0%nat ↔ l = []).
Proof.
  pose proof (Pos2Nat.is_pos limit) as Hpos.
  destruct (pageCount_bounds (length l) limit) as [Hcover Htight].
  split_and!.
  - rewrite paginate_take. by apply take_ge.
  - intros page. unfold paginate. rewrite length_take. lia.
  - intros page Hlate. unfold paginate, skipOf.
    rewrite drop_ge; [by rewrite take_nil|].
    etrans; [exact Hcover|]. apply Nat.mul_le_mono_r. lia.
  - intros page Hin Hempty. apply (f_equal length) in Hempty.
    unfold paginate, skipOf in Hempty.
    rewrite length_take, length_drop in Hempty. simpl in Hempty.
    pose proof (Pos2Nat.is_pos page).
    assert (0 < length l)%nat as Hl.
    { destruct l; simpl in *; [|lia]. rewrite pageCount_0 in Hin. lia. }
    specialize (Htight Hl).
    assert ((Pos.to_nat page - 1) * Pos.to_nat limit
            ≤ (pageCount (length l) limit - 1) * Pos.to_nat limit)%nat
      by (apply Nat.mul_le_mono_r; lia).
    lia.
  - done.
  - split.
    + intros Hz. rewrite Hz in Hcover. destruct l; [done|simpl in *; lia].
    + intros ->. apply pageCount_0.
Qed.

(** Every element of the result is on one of its pages. *)
Lemma elem_of_some_page l limit (x : A) :
  x ∈ l ↔ ∃ page, x ∈ paginate page limit l.
Proof.
  split.
  - intros [i Hi]%list_elem_of_lookup.
    exists (Pos.of_nat (S (i / Pos.to_nat limit))).
    by apply paginate_lookup.
  - intros [page Hin]. unfold paginate in Hin.
    by apply subseteq_take, subseteq_drop in Hin.
Qed.

End Paging.

(** ** Listing and opening projects *)

Section ProjectListings.

Variable updatedAt : ObjectId → Date.





Lemma elem_of_findUserProjects (db : Db) (u : ObjectId) (status : option string)
  (pid : ObjectId) (p : Project.IProject) :
  (pid, p) ∈ ProjectService.findUserProjects updatedAt db u status
  ↔ projects db !! pid = Some p
    ∧ ProjectService.matchesUserQuery u status p = true.
Proof.
  unfold ProjectService.findUserProjects.
  rewrite merge_sort_Permutation, list_elem_of_filter, elem_of_map_to_list.
  simpl. tauto.
Qed.



(** X24. [getProjectById] never returns a project.  It runs [isMember] on
    the project with [members.userId] populated, where no entry compares
    equal to an id: a project that exists is refused with [ACCESS_DENIED]
    to everybody, the users in its member array and its owner included, so
    that a project on a page of [getUserProjects] cannot be opened by the
    user it is listed for; when the user behind some member entry does not
    exist, the call fails on that entry instead.  Only an id that no
    project has is answered [PROJECT_NOT_FOUND]. *)
Theorem getProjectById_returns_no_project (db : Db) (pid u : ObjectId) :
  (projects db !! pid = None →
     ProjectService.getProjectById db pid u = Err PROJECT_NOT_FOUND)
  ∧ (∀ p, projects db !! pid = Some p →
     (Forall (fun m => Project.userId m ∈ users db) (Project.members p) →
      ProjectService.getProjectById db pid u = Err ACCESS_DENIED)
     ∧ (¬ Forall (fun m => Project.userId m ∈ users db) (Project.members p) →
        ProjectService.getProjectById db pid u = Err TYPE_ERROR))
  ∧ (∀ r, ProjectService.getProjectById db pid u ≠ Ok r)
  ∧ (∀ status page limit p,
     (pid, p) ∈ items (ProjectService.getUserProjects updatedAt db u page limit status) →
     ProjectService.getProjectById db pid u = Err ACCESS_DENIED
     ∨ ProjectService.getProjectById db pid u = Err TYPE_ERROR).
Proof.
  assert (∀ p, projects db !! pid = Some p →
          (Forall (fun m => Project.userId m ∈ users db) (Project.members p) →
           ProjectService.getProjectById db pid u = Err ACCESS_DENIED)
          ∧ (¬ Forall (fun m => Project.userId m ∈ users db) (Project.members p) →
             ProjectService.getProjectById db pid u = Err TYPE_ERROR)) as Hfound.
  { intros p Hp. rewrite getProjectById_spec, Hp.
    destruct (forallb _ (Project.members p)) eqn:Hall.
    - split; [done|]. intros Hnot. destruct Hnot.
      apply Forall_forall. intros m Hm. rewrite forallb_forall in Hall.
      specialize (Hall m (proj1 (list_elem_of_In _ _) Hm)).
      by apply bool_decide_eq_true in Hall.
    - split; [|done]. intros Hall'.
      assert (forallb (fun m => bool_decide (Project.userId m ∈ users db))
                (Project.members p) = true) as Htrue; [|congruence].
      apply forallb_forall. intros m Hm%list_elem_of_In.
      rewrite Forall_forall in Hall'. apply bool_decide_eq_true. by apply Hall'. }
  split_and!.
  - intros Hp. by rewrite getProjectById_spec, Hp.
  - exact Hfound.
  - intros r. rewrite getProjectById_spec.
    destruct (projects db !! pid) as [p|]; [|done].
    by destruct (forallb _ (Project.members p)).
  - intros status page limit p Hin.
    assert ((pid, p) ∈ ProjectService.findUserProjects updatedAt db u status)
      as [Hp _]%elem_of_findUserProjects
      by (apply (elem_of_some_page _ limit); by exists page).
    destruct (Hfound p Hp) as [Hall Hnot].
    destruct (decide (Forall (fun m => Project.userId m ∈ users db)
                        (Project.members p))); [left|right]; auto.
Qed.

End ProjectListings.


Lemma getProjectById_returns_no_project_witness :
  Project.isMember Sample.team Sample.userY = true
  ∧ ProjectService.getProjectById Sample.db Sample.projP Sample.userY
    = Err ACCESS_DENIED
  ∧ ProjectService.getProjectById Sample.db Sample.projR Sample.userY
    = Err PROJECT_NOT_FOUND
  ∧ ProjectService.getProjectById SampleQueries.dbWithoutZ Sample.projQ Sample.userX
    = Err TYPE_ERROR.
Proof.
  split_and!.
  - reflexivity.
  - apply (proj1 (proj2 (getProjectById_returns_no_project SampleQueries.updatedAt
                           Sample.db Sample.projP Sample.userY))
             Sample.team eq_refl).
    apply (bool_decide_unpack _). by vm_compute.
  - exact (proj1 (getProjectById_returns_no_project SampleQueries.updatedAt
                    Sample.db Sample.projR Sample.userY) eq_refl).
  - apply (proj1 (proj2 (getProjectById_returns_no_project SampleQueries.updatedAt
                           SampleQueries.dbWithoutZ Sample.projQ Sample.userX))
             Sample.other eq_refl).
    apply (bool_decide_unpack _). by vm_compute.
Defined.

Lemma getTaskById_returns_no_task_witness :
  Project.isMember Sample.team Sample.userY = true
  ∧ TaskService.getTaskById Sample.db Sample.T0 Sample.userY
    = Err STRICT_POPULATE_ERROR
  ∧ TaskService.getTaskById Sample.db Sample.T0 Sample.userZ
    = Err STRICT_POPULATE_ERROR
  ∧ TaskService.getTaskById Sample.db Sample.T3 Sample.userY = Err TASK_NOT_FOUND.
Proof.
  split_and!.
  - reflexivity.
  - apply (proj1 (proj2 (getTaskById_returns_no_task Sample.db Sample.T0 Sample.userY))).
    by eexists.
  - apply (proj1 (proj2 (getTaskById_returns_no_task Sample.db Sample.T0 Sample.userZ))).
    by eexists.
  - exact (proj1 (getTaskById_returns_no_task Sample.db Sample.T3 Sample.userY) eq_refl).
Defined.

Lemma pages_partition_the_result_witness :
  items (ProjectService.getUserProjects SampleQueries.updatedAt Sample.db
           Sample.userZ 2 2 None) = []
  ∧ items (ProjectService.getUserProjects SampleQueries.updatedAt Sample.db
             Sample.userZ 1 2 None) ≠ [].
Proof.
  pose proof (pages_partition_the_result
                (ProjectService.findUserProjects SampleQueries.updatedAt Sample.db
                   Sample.userZ None)
                2) as (_ & _ & Hlate & Hearly & _).
  split.
  - apply (Hlate 2%positive). vm_compute. lia.
  - apply (Hearly 1%positive). vm_compute. lia.
Defined.

(** ** Comments *)

Section Comments.

Import Comment CommentService.




End Comments.


